(** * Local response normalization (src/ops/lrn.ts)

    A shallow embedding of [LRN.localResponseNormalization]: the operation
    checks its arguments, brings a rank-3 input to rank 4, hands the tensor and
    the five parameters to the engine's 'LRN4D' kernel and brings the result
    back to the caller's rank.

    The operation is embedded from the source.  The engine, the tensor
    reshapes, [util.assert], [util.isInt] and the 'LRN4D' kernel live in other
    files of the library; they are either parameters of the development or
    modelled from the specification, and marked as such. *)

From Stdlib Require Import ZArith QArith Reals Lra Lia List String.
From stdpp Require Import base option list gmap strings.

Local Open Scope nat_scope.

(** ** Numbers *)

(** A JavaScript [number] as the operation sees it: the parameters [radius],
    [bias], [alpha] and [beta].  Finite values only (no NaN, no infinities),
    hence rationals: [5], [-1] and [2.5] are [5], [-1] and [5 # 2]. *)
Definition number : Type := Q.

(** Modelled from the spec: [util.isInt] is not part of the source file; the
    operation's message reads "radius must be an integer", and the spec lists
    "non-integer radius" as the violated constraint.  A rational p/q is an
    integer when the remainder of p by q is zero. *)
Definition isInt (a : number) : bool :=
  (Z.rem (Qnum a) (Zpos (Qden a)) =? 0)%Z.

(** The integer a [number] denotes when [isInt] holds (its truncation
    otherwise). *)
Definition toInt (a : number) : Z := Z.quot (Qnum a) (Zpos (Qden a)).

(** The arithmetic of tensor elements.  The kernel computes in the tensor's
    floating-point precision; nothing below depends on which arithmetic that
    is, so the carrier and its operations are an interface. *)
Class Numeric (num : Type) : Type := {
  ofNumber : number -> num;
  nadd : num -> num -> num;
  nmul : num -> num -> num;
  ndiv : num -> num -> num;
  npow : num -> num -> num
}.

#[global] Instance numeric_inhabited {num : Type} `{Numeric num} : Inhabited num :=
  populate (ofNumber 0%Q).

(** Real arithmetic, with [Rpower] for the fractional power. *)
#[global] Instance RNumeric : Numeric R := {|
  ofNumber := Q2R;
  nadd := Rplus;
  nmul := Rmult;
  ndiv := Rdiv;
  npow := Rpower
|}.

(** ** Tensors, kernel configurations and the engine *)

(** A tensor object: a shape over a data buffer owned by the engine.  Two
    tensors with the same [dataId] are views of one buffer. *)
Record Tensor : Type := {
  dataId : nat;
  shape : list nat
}.

Definition rank (x : Tensor) : nat := length (shape x).

(** Modelled from the spec: [Tensor.as4D] and [Tensor.as3D] are not part of the
    source file; "the rank-adaptation is pure reshaping with no data movement
    beyond metadata": the new tensor views the same buffer. *)
Definition as4D (x : Tensor) (d0 d1 d2 d3 : nat) : Tensor :=
  {| dataId := dataId x; shape := [d0; d1; d2; d3] |}.

Definition as3D (x : Tensor) (d0 d1 d2 : nat) : Tensor :=
  {| dataId := dataId x; shape := [d0; d1; d2] |}.

(** [args] of the kernel invocation. *)
Record KernelArgs : Type := {
  radius : number;
  bias : number;
  alpha : number;
  beta : number;
  normRegion : string
}.

(** [{inputs: {x}, args}]. *)
Record KernelConfig : Type := {
  inputs_x : Tensor;
  args : KernelArgs
}.

(** The constraint an [InvalidArgument] names, with the offending value.  The
    first two are the operation's own assertions; the last three belong to the
    kernel contract of the spec. *)
Inductive Violation : Type :=
  | RankNot3Or4 (r : nat)
  | RadiusNotInteger (r : number)
  | RankNot4 (r : nat)
  | RadiusNotNonNegativeInteger (r : number)
  | RegionNotRecognized (s : string).

Inductive Error : Type :=
  | InvalidArgument (why : Violation)
  | EngineError (what : string).

Inductive Result (A : Type) : Type :=
  | Ok (a : A)
  | Err (e : Error).
Arguments Ok {A} a.
Arguments Err {A} e.

Section Engine.
Context {num : Type} {arith : Numeric num}.

(** The engine: the data buffers it owns, by [dataId], and the kernel
    invocations it has received so far (a trace, oldest first). *)
Record Engine : Type := {
  store : gmap nat (list num);
  kernelCalls : list (string * KernelConfig)
}.

(** Computations against the engine.  A thrown error leaves the engine as it
    was when the error was thrown. *)
Definition M (A : Type) : Type := Engine -> Result A * Engine.

Definition ret {A} (a : A) : M A := fun e => (Ok a, e).

Definition throw {A} (err : Error) : M A := fun e => (Err err, e).

Definition bind {A B} (m : M A) (k : A -> M B) : M B :=
  fun e =>
    match m e with
    | (Ok a, e') => k a e'
    | (Err err, e') => (Err err, e')
    end.

(** Modelled from the spec: [util.assert] is not part of the source file;
    "violating a precondition fails with an InvalidArgument condition naming
    the violated constraint". *)
Definition assert (cond : bool) (why : Violation) : M unit :=
  if cond then ret tt else throw (InvalidArgument why).

Definition logCall (name : string) (cfg : KernelConfig) (e : Engine) : Engine :=
  {| store := store e; kernelCalls := kernelCalls e ++ [(name, cfg)] |}.

End Engine.

Arguments Engine num : clear implicits.
Arguments M num A : clear implicits.

Notation "x <- m ;; k" := (bind m (fun x => k))
  (at level 100, m at next level, right associativity).
Notation "m ;;; k" := (bind m (fun _ => k))
  (at level 100, right associativity).

(** ** The operation *)

Section Operation.
Context {num : Type} {arith : Numeric num}.

(** The kernels the engine can run, by name: the backend. *)
Variable backend : string -> KernelConfig -> M num Tensor.

(** [ENV.engine.executeKernel(name, config)]: the engine records the
    invocation and runs the backend's kernel. *)
Definition executeKernel (name : string) (cfg : KernelConfig) : M num Tensor :=
  fun e => backend name cfg (logCall name cfg e).

(** [LRN.localResponseNormalization], src/ops/lrn.ts lines 43-68.  An omitted
    argument is [None] and takes the default of the signature. *)
Definition localResponseNormalization (x : Tensor)
    (radius bias alpha beta : option number) (normRegion : option string)
    : M num Tensor :=
  let radius := default 5%Q radius in
  let bias := default 1%Q bias in
  let alpha := default 1%Q alpha in
  let beta := default (1 # 2)%Q beta in
  let normRegion := default "acrossChannels"%string normRegion in
  assert ((rank x =? 4) || (rank x =? 3)) (RankNot3Or4 (rank x)) ;;;
  assert (isInt radius) (RadiusNotInteger radius) ;;;
  let reshapedTo4D := rank x =? 3 in
  let x4D :=
    if rank x =? 3
    then as4D x 1 (shape x !!! 0) (shape x !!! 1) (shape x !!! 2)
    else x in
  res <- executeKernel "LRN4D"
           {| inputs_x := x4D;
              args := {| radius := radius; bias := bias; alpha := alpha;
                         beta := beta; normRegion := normRegion |} |} ;;
  if reshapedTo4D
  then ret (as3D res (shape res !!! 1) (shape res !!! 2) (shape res !!! 3))
  else ret res.

End Operation.

(** ** The 'LRN4D' kernel *)

(** The two normalization regions of the spec's data model. *)
Inductive Region : Type :=
  | AcrossChannels
  | WithinChannel.

(** The region a [normRegion] string names. *)
Definition parseRegion (s : string) : option Region :=
  if String.eqb s "acrossChannels" then Some AcrossChannels
  else if String.eqb s "withinChannel" then Some WithinChannel
  else None.

(** "radius is a non-negative integer". *)
Definition isNonNegativeInteger (a : number) : bool :=
  isInt a && (0 <=? Qnum a)%Z.

(** The integers of [lo, hi], in increasing order; none when [hi < lo]. *)
Definition interval (lo hi : Z) : list Z :=
  map (fun i => (lo + Z.of_nat i)%Z) (seq 0 (Z.to_nat (hi - lo + 1))).

(** An index within [0, n). *)
Definition inBounds (i : Z) (n : nat) : bool :=
  (0 <=? i)%Z && (i <? Z.of_nat n)%Z.

(** Modelled from the spec: the 'LRN4D' kernel is not part of the source file.
    "AcrossChannels mode: the neighborhood window [is the] channels in
    [max(0, c - radius), min(C - 1, c + radius)]". *)
Definition acrossWindow (C : nat) (r : Z) (c : nat) : list Z :=
  interval (Z.max 0 (Z.of_nat c - r)) (Z.min (Z.of_nat C - 1) (Z.of_nat c + r)).

(** Modelled from the spec: the 'LRN4D' kernel is not part of the source file.
    "WithinChannel mode: the window ranges over spatial offsets (dh, dw) in
    [-radius, radius] x [-radius, radius], clamped to valid (h, w) bounds": the
    positions (h + dh, w + dw) that fall inside the tensor, as for the channel
    window (no wraparound, no padding). *)
Definition withinWindow (H W : nat) (r : Z) (h w : nat) : list (Z * Z) :=
  flat_map
    (fun dh =>
       flat_map
         (fun dw =>
            if inBounds (Z.of_nat h + dh) H && inBounds (Z.of_nat w + dw) W
            then [((Z.of_nat h + dh)%Z, (Z.of_nat w + dw)%Z)]
            else [])
         (interval (- r) r))
    (interval (- r) r).

Section Kernel.
Context {num : Type} {arith : Numeric num}.

(** Modelled from the spec: "logical indices (n, h, w, c) map bijectively to
    storage offsets", row-major with the channel innermost. *)
Definition offset (H W C : nat) (n h w c : nat) : nat :=
  ((n * H + h) * W + w) * C + c.

(** [x[n,h,w,c]] in a buffer laid out for shape (_, H, W, C). *)
Definition at4 (H W C : nat) (buf : list num) (n h w c : nat) : num :=
  buf !!! offset H W C n h w c.

(** The sum of a window's terms, in window order; a window of one term sums
    to that term, an empty one to zero. *)
Definition sum (l : list num) : num :=
  match l with
  | [] => ofNumber 0%Q
  | a :: l' => fold_left nadd l' a
  end.

(** [z^2]. *)
Definition square (z : num) : num := nmul z z.

(** Modelled from the spec: the 'LRN4D' kernel is not part of the source file.
    "sumSq = sum over the window of x^2", the window being the one of the
    region. *)
Definition sumSq (region : Region) (H W C : nat) (buf : list num) (r : Z)
    (n h w c : nat) : num :=
  match region with
  | AcrossChannels =>
      sum (map (fun c' => square (at4 H W C buf n h w (Z.to_nat c')))
             (acrossWindow C r c))
  | WithinChannel =>
      sum (map (fun p => square (at4 H W C buf n (Z.to_nat (fst p))
                                   (Z.to_nat (snd p)) c))
             (withinWindow H W r h w))
  end.

(** Modelled from the spec: the 'LRN4D' kernel is not part of the source file.
    "denom = (bias + alpha * sumSq) ^ beta; out[n,h,w,c] = x[n,h,w,c] / denom". *)
Definition normalizeAt (region : Region) (H W C : nat) (buf : list num) (r : Z)
    (bias alpha beta : num) (n h w c : nat) : num :=
  ndiv (at4 H W C buf n h w c)
       (npow (nadd bias (nmul alpha (sumSq region H W C buf r n h w c))) beta).

(** The output buffer: every element of the (N, H, W, C) tensor, in storage
    order. *)
Definition normalize (region : Region) (N H W C : nat) (buf : list num) (r : Z)
    (bias alpha beta : num) : list num :=
  flat_map (fun n =>
    flat_map (fun h =>
      flat_map (fun w =>
        map (fun c => normalizeAt region H W C buf r bias alpha beta n h w c)
            (seq 0 C))
        (seq 0 W))
      (seq 0 H))
    (seq 0 N).

(** Reading a tensor's buffer. *)
Definition readData (x : Tensor) : M num (list num) :=
  fun e =>
    match store e !! dataId x with
    | Some buf => (Ok buf, e)
    | None => (Err (EngineError "tensor has no data"), e)
    end.

(** Modelled from the spec: "the kernel allocates exactly one output buffer
    sized identically to the input"; the new buffer gets a [dataId] the engine
    does not use yet. *)
Definition allocate (shp : list nat) (buf : list num) : M num Tensor :=
  fun e =>
    let id := fresh (dom (store e)) in
    (Ok {| dataId := id; shape := shp |},
     {| store := <[id := buf]> (store e); kernelCalls := kernelCalls e |}).

(** Modelled from the spec: the 'LRN4D' kernel is not part of the source file.
    The contract of section 4.1: the preconditions (rank exactly 4, radius a
    non-negative integer, region one of the two recognized values) are checked
    at entry, before the output buffer is allocated; then every element is
    normalized. *)
Definition LRN4D (cfg : KernelConfig) : M num Tensor :=
  let x := inputs_x cfg in
  let a := args cfg in
  assert (rank x =? 4) (RankNot4 (rank x)) ;;;
  assert (isNonNegativeInteger (radius a))
         (RadiusNotNonNegativeInteger (radius a)) ;;;
  region <- match parseRegion (normRegion a) with
            | Some region => ret region
            | None => throw (InvalidArgument (RegionNotRecognized (normRegion a)))
            end ;;
  buf <- readData x ;;
  allocate (shape x)
    (normalize region (shape x !!! 0) (shape x !!! 1) (shape x !!! 2)
       (shape x !!! 3) buf (toInt (radius a))
       (ofNumber (bias a)) (ofNumber (alpha a)) (ofNumber (beta a))).

(** The backend that knows the 'LRN4D' kernel and no other. *)
Definition lrnBackend (name : string) (cfg : KernelConfig) : M num Tensor :=
  if String.eqb name "LRN4D" then LRN4D cfg
  else throw (EngineError "kernel is not registered").

(** The engine after the kernel has allocated [out]. *)
Definition allocated (e : Engine num) (out : list num) : Engine num :=
  {| store := <[fresh (dom (store e)) := out]> (store e);
     kernelCalls := kernelCalls e |}.

(** The buffer the kernel computes for a configuration, given the input's
    data and the region. *)
Definition outputOf (cfg : KernelConfig) (region : Region) (buf : list num)
    : list num :=
  let x := inputs_x cfg in
  let a := args cfg in
  normalize region (shape x !!! 0) (shape x !!! 1) (shape x !!! 2)
    (shape x !!! 3) buf (toInt (radius a))
    (ofNumber (bias a)) (ofNumber (alpha a)) (ofNumber (beta a)).

(** A tensor the engine holds data for, as many elements as its shape says. *)
Definition validTensor (e : Engine num) (x : Tensor) : Prop :=
  exists buf, store e !! dataId x = Some buf /\
              length buf = foldr Nat.mul 1 (shape x).

End Kernel.

(** The operation over the backend of the 'LRN4D' kernel. *)
Definition lrn {num : Type} `{Numeric num} :=
  localResponseNormalization (num := num) lrnBackend.

(** ** Vocabulary of the statements *)

(** The [args] the operation builds from its five optional parameters. *)
Definition withDefaults (radius bias alpha beta : option number)
    (normRegion : option string) : KernelArgs :=
  {| radius := default 5%Q radius;
     bias := default 1%Q bias;
     alpha := default 1%Q alpha;
     beta := default (1 # 2)%Q beta;
     normRegion := default "acrossChannels"%string normRegion |}.

(** The rank-4 view [x.as4D(1, x.shape[0], x.shape[1], x.shape[2])] of a
    rank-3 tensor. *)
Definition batchOfOne (x : Tensor) : Tensor :=
  as4D x 1 (shape x !!! 0) (shape x !!! 1) (shape x !!! 2).

(** The rank-3 view [res.as3D(res.shape[1], res.shape[2], res.shape[3])]. *)
Definition dropBatch (res : Tensor) : Tensor :=
  as3D res (shape res !!! 1) (shape res !!! 2) (shape res !!! 3).

(** The tensor the kernel receives: the input itself, or its batch-of-one
    view when the input has rank 3. *)
Definition kernelInput (x : Tensor) : Tensor :=
  if rank x =? 3 then batchOfOne x else x.

(** Two outcomes that a caller cannot tell apart: the same error, or tensors
    of the same shape over buffers of the same contents. *)
Definition sameOutcome {num : Type} {arith : Numeric num}
    (o1 o2 : Result Tensor * Engine num) : Prop :=
  match o1, o2 with
  | (Ok t1, e1), (Ok t2, e2) =>
      shape t1 = shape t2 /\ store e1 !! dataId t1 = store e2 !! dataId t2
  | (Err err1, _), (Err err2, _) => err1 = err2
  | _, _ => False
  end.

(** A backend whose kernels leave the buffers the engine holds as they
    are. *)
Definition keepsBuffers {num : Type} {arith : Numeric num}
    (backend : string -> KernelConfig -> M num Tensor) : Prop :=
  forall name cfg (e : Engine num) id buf,
    store e !! id = Some buf ->
    store (snd (backend name cfg e)) !! id = Some buf.

(** A backend whose kernels return tensors over buffers that did not exist
    before the invocation. *)
Definition returnsNewBuffers {num : Type} {arith : Numeric num}
    (backend : string -> KernelConfig -> M num Tensor) : Prop :=
  forall name cfg (e e' : Engine num) t,
    backend name cfg e = (Ok t, e') ->
    store e !! dataId t = None /\ is_Some (store e' !! dataId t).

(** A backend whose kernels check nothing and return their input tensor: what
    the operation does on its own shows against it. *)
Definition echoBackend {num : Type} {arith : Numeric num}
    (name : string) (cfg : KernelConfig) : M num Tensor :=
  ret (inputs_x cfg).

(** A symbolic carrier: the arithmetic expression an element is computed by.
    It lets the model run on concrete tensors. *)
Inductive Formula : Type :=
  | Lit (q : number)
  | Add (a b : Formula)
  | Mul (a b : Formula)
  | Div (a b : Formula)
  | Pow (a b : Formula).

#[global] Instance FormulaNumeric : Numeric Formula := {|
  ofNumber := Lit;
  nadd := Add;
  nmul := Mul;
  ndiv := Div;
  npow := Pow
|}.

(** Concrete tensors and engines for the examples below. *)
Definition vec123 : list Formula := [Lit 1%Q; Lit 2%Q; Lit 3%Q].

Definition engine123 : Engine Formula :=
  {| store := {[ 0 := vec123 ]}; kernelCalls := [] |}.

Definition t1113 : Tensor := {| dataId := 0; shape := [1; 1; 1; 3] |}.
Definition t113 : Tensor := {| dataId := 0; shape := [1; 1; 3] |}.
Definition t13 : Tensor := {| dataId := 0; shape := [1; 3] |}.

(** The tensor with values 1, 2, 3 over the reals. *)
Definition realEngine123 : Engine R :=
  {| store := {[ 0 := [1%R; 2%R; 3%R] ]}; kernelCalls := [] |}.

(** The 2 x 2 single-channel tensor with values 1, 2, 3, 4. *)
Definition engine1234 : Engine Formula :=
  {| store := {[ 0 := [Lit 1%Q; Lit 2%Q; Lit 3%Q; Lit 4%Q] ]};
     kernelCalls := [] |}.

Definition t1221 : Tensor := {| dataId := 0; shape := [1; 2; 2; 1] |}.

(** The number of elements a shape holds. *)
Definition sizeOf (shp : list nat) : nat := foldr Nat.mul 1 shp.



(** A backend whose 'LRN4D' kernel returns tensors of its input's shape that
    the engine holds data for, as many elements as the shape says. *)
Definition returnsValidTensors {num : Type} {arith : Numeric num}
    (backend : string -> KernelConfig -> M num Tensor) : Prop :=
  forall cfg (e e' : Engine num) t,
    backend "LRN4D"%string cfg e = (Ok t, e') ->
    shape t = shape (inputs_x cfg) /\ validTensor e' t.

(** ** The operation over an arbitrary backend *)

Section OperationFacts.
Context {num : Type} {arith : Numeric num}.
Variable backend : string -> KernelConfig -> M num Tensor.

Lemma bind_ok {A B} (m : M num A) (k : A -> M num B) e a e' :
  m e = (Ok a, e') -> bind m k e = k a e'.
Proof. intros Hm. unfold bind. now rewrite Hm. Qed.

Lemma assert_true why (e : Engine num) : assert true why e = (Ok tt, e).
Proof. reflexivity. Qed.

(** The rank assertion fails: nothing else happens. *)
Lemma lrn_rank_rejected x r b a bt s e :
  rank x <> 3 -> rank x <> 4 ->
  localResponseNormalization backend x r b a bt s e
  = (Err (InvalidArgument (RankNot3Or4 (rank x))), e).
Proof.
  intros H3 H4. unfold localResponseNormalization.
  apply Nat.eqb_neq in H3, H4. rewrite H3, H4. reflexivity.
Qed.

(** The radius assertion fails: nothing else happens. *)
Lemma lrn_radius_rejected x r b a bt s e :
  rank x = 3 \/ rank x = 4 ->
  isInt (radius (withDefaults r b a bt s)) = false ->
  localResponseNormalization backend x r b a bt s e
  = (Err (InvalidArgument
            (RadiusNotInteger (radius (withDefaults r b a bt s)))), e).
Proof.
  intros Hrank Hint. unfold localResponseNormalization.
  assert ((rank x =? 4) || (rank x =? 3) = true) as ->.
  { destruct Hrank as [-> | ->]; reflexivity. }
  simpl in Hint. rewrite (bind_ok _ _ e tt e) by apply assert_true.
  rewrite Hint. reflexivity.
Qed.

(** Both assertions hold: the kernel is invoked, once, on [kernelInput x] with
    the five parameters, and its outcome is the operation's, up to the
    rank-3 view of the result. *)
Lemma lrn_dispatch x r b a bt s e :
  rank x = 3 \/ rank x = 4 ->
  isInt (radius (withDefaults r b a bt s)) = true ->
  localResponseNormalization backend x r b a bt s e
  = let cfg := {| inputs_x := kernelInput x;
                  args := withDefaults r b a bt s |} in
    match backend "LRN4D" cfg (logCall "LRN4D" cfg e) with
    | (Ok res, e') => (Ok (if rank x =? 3 then dropBatch res else res), e')
    | (Err err, e') => (Err err, e')
    end.
Proof.
  intros Hrank Hint. unfold localResponseNormalization.
  assert ((rank x =? 4) || (rank x =? 3) = true) as ->.
  { destruct Hrank as [-> | ->]; reflexivity. }
  simpl in Hint. rewrite (bind_ok _ _ e tt e) by apply assert_true.
  rewrite Hint. rewrite (bind_ok _ _ e tt e) by apply assert_true.
  unfold bind, executeKernel, kernelInput, withDefaults, batchOfOne. cbv zeta.
  destruct (backend _ _ _) as [[res | err] e']; [| reflexivity].
  destruct (rank x =? 3); reflexivity.
Qed.

(** The outcome of the operation in full: the two assertions in order, then
    the kernel invocation. *)
Lemma lrn_cases x r b a bt s e :
  localResponseNormalization backend x r b a bt s e
  = if negb ((rank x =? 4) || (rank x =? 3))
    then (Err (InvalidArgument (RankNot3Or4 (rank x))), e)
    else if negb (isInt (radius (withDefaults r b a bt s)))
    then (Err (InvalidArgument
                 (RadiusNotInteger (radius (withDefaults r b a bt s)))), e)
    else
      let cfg := {| inputs_x := kernelInput x;
                    args := withDefaults r b a bt s |} in
      match backend "LRN4D" cfg (logCall "LRN4D" cfg e) with
      | (Ok res, e') => (Ok (if rank x =? 3 then dropBatch res else res), e')
      | (Err err, e') => (Err err, e')
      end.
Proof.
  destruct ((rank x =? 4) || (rank x =? 3)) eqn:Hrank; cbn [negb].
  - assert (rank x = 3 \/ rank x = 4) as Hr.
    { apply orb_prop in Hrank as [H4 | H3]; [right | left];
        now apply Nat.eqb_eq. }
    destruct (isInt (radius (withDefaults r b a bt s))) eqn:Hint; cbn [negb].
    + now apply lrn_dispatch.
    + now apply lrn_radius_rejected.
  - apply orb_false_elim in Hrank as [H4 H3].
    apply lrn_rank_rejected; now apply Nat.eqb_neq.
Qed.

(** The operation touches no buffer itself: over a backend that keeps the
    engine's buffers, so does the operation. *)
Lemma lrn_keeps_buffers x r b a bt s e :
  keepsBuffers backend ->
  forall id buf,
    store e !! id = Some buf ->
    store (snd (localResponseNormalization backend x r b a bt s e)) !! id
    = Some buf.
Proof.
  intros Hkeeps id buf Hid. rewrite lrn_cases.
  destruct (negb ((rank x =? 4) || (rank x =? 3))); [exact Hid |].
  destruct (negb (isInt (radius (withDefaults r b a bt s)))); [exact Hid |].
  cbv zeta.
  match goal with
  | |- context [backend ?n ?c ?e0] =>
      pose proof (Hkeeps n c e0 id buf Hid) as Hframe;
      destruct (backend n c e0) as [[res | err] e']
  end; exact Hframe.
Qed.

(** The tensor the operation returns is the kernel's, or a view of it: over
    a backend that returns tensors over new buffers, so does the operation. *)
Lemma lrn_returns_new_buffer x r b a bt s e t e' :
  returnsNewBuffers backend ->
  localResponseNormalization backend x r b a bt s e = (Ok t, e') ->
  store e !! dataId t = None /\ is_Some (store e' !! dataId t).
Proof.
  intros Hnew. rewrite lrn_cases.
  destruct (negb ((rank x =? 4) || (rank x =? 3))); [discriminate |].
  destruct (negb (isInt (radius (withDefaults r b a bt s)))); [discriminate |].
  cbv zeta.
  match goal with
  | |- context [backend ?n ?c ?e0] =>
      pose proof (Hnew n c e0) as Hfresh;
      destruct (backend n c e0) as [[res | err] e1]
  end; [| discriminate].
  destruct (Hfresh e1 res eq_refl) as [Hnone Hsome].
  destruct (rank x =? 3); intros [= <- <-]; simpl; auto.
Qed.

End OperationFacts.

(** ** Lists laid out in blocks *)

Section Blocks.
Context {A B : Type}.

Lemma lookup_map (f : A -> B) (l : list A) (i : nat) :
  map f l !! i = f <$> (l !! i).
Proof.
  revert i. induction l as [| a l IH]; intros [| i]; simpl; auto.
Qed.

Lemma length_flat_map_blocks (f : A -> list B) (k : nat) (l : list A) :
  (forall a, length (f a) = k) ->
  length (flat_map f l) = length l * k.
Proof.
  intros Hk. induction l as [| a l IH]; simpl; [reflexivity |].
  rewrite length_app, Hk, IH. reflexivity.
Qed.

(** Element [j] of block [i]. *)
Lemma lookup_flat_map_blocks (f : A -> list B) (k : nat) (l : list A)
    (i j : nat) (a : A) :
  (forall a, length (f a) = k) ->
  l !! i = Some a -> j < k ->
  flat_map f l !! (i * k + j) = f a !! j.
Proof.
  intros Hk. revert i. induction l as [| a0 l IH]; intros i Hi Hj.
  - destruct i; discriminate.
  - destruct i as [| i]; simpl in *.
    + injection Hi as ->. apply lookup_app_l. rewrite Hk. exact Hj.
    + rewrite lookup_app_r by (rewrite Hk; lia).
      rewrite Hk. replace (k + i * k + j - k) with (i * k + j) by lia.
      apply IH; assumption.
Qed.

End Blocks.

(** ** The windows *)

Lemma interval_empty lo hi : (hi < lo)%Z -> interval lo hi = [].
Proof.
  intros Hlt. unfold interval.
  replace (Z.to_nat (hi - lo + 1)) with 0 by lia. reflexivity.
Qed.

Lemma interval_cons lo hi :
  (lo <= hi)%Z -> interval lo hi = lo :: interval (lo + 1) hi.
Proof.
  intros Hle. unfold interval.
  replace (Z.to_nat (hi - lo + 1)) with (S (Z.to_nat (hi - (lo + 1) + 1)))
    by lia.
  simpl. f_equal; [lia |].
  rewrite <- seq_shift, map_map. apply map_ext. intros i. lia.
Qed.

Lemma interval_single lo : interval lo lo = [lo].
Proof.
  rewrite interval_cons by lia. rewrite interval_empty by lia. reflexivity.
Qed.

Lemma elem_of_interval lo hi i :
  In i (interval lo hi) <-> (lo <= i <= hi)%Z.
Proof.
  unfold interval. rewrite in_map_iff. split.
  - intros (k & <- & Hk). apply in_seq in Hk. lia.
  - intros Hi. exists (Z.to_nat (i - lo)). split; [lia |].
    apply in_seq. lia.
Qed.

(** With radius 0 the channel window is the channel itself. *)
Lemma acrossWindow_radius_0 C c :
  c < C -> acrossWindow C 0 c = [Z.of_nat c].
Proof.
  intros Hc. unfold acrossWindow.
  replace (Z.max 0 (Z.of_nat c - 0)) with (Z.of_nat c) by lia.
  replace (Z.min (Z.of_nat C - 1) (Z.of_nat c + 0)) with (Z.of_nat c) by lia.
  apply interval_single.
Qed.

(** With radius 0 the spatial window is the position itself. *)
Lemma withinWindow_radius_0 H W h w :
  h < H -> w < W -> withinWindow H W 0 h w = [(Z.of_nat h, Z.of_nat w)].
Proof.
  intros Hh Hw. unfold withinWindow. simpl (- 0)%Z.
  rewrite interval_single. simpl. unfold inBounds.
  replace (Z.of_nat h + 0)%Z with (Z.of_nat h) by lia.
  replace (Z.of_nat w + 0)%Z with (Z.of_nat w) by lia.
  assert ((0 <=? Z.of_nat h)%Z && (Z.of_nat h <? Z.of_nat H)%Z = true) as ->.
  { apply andb_true_intro. split; [apply Z.leb_le | apply Z.ltb_lt]; lia. }
  assert ((0 <=? Z.of_nat w)%Z && (Z.of_nat w <? Z.of_nat W)%Z = true) as ->.
  { apply andb_true_intro. split; [apply Z.leb_le | apply Z.ltb_lt]; lia. }
  reflexivity.
Qed.

Lemma interval_shift i lo hi :
  map (Z.add i) (interval lo hi) = interval (i + lo) (i + hi).
Proof.
  unfold interval. rewrite map_map.
  replace (i + hi - (i + lo) + 1)%Z with (hi - lo + 1)%Z by lia.
  apply map_ext. intros k. lia.
Qed.

Lemma flat_map_nil {A B : Type} (l : list A) :
  flat_map (fun _ : A => @nil B) l = [].
Proof. induction l; simpl; auto. Qed.

(** Dropping the indices outside [0, n) from an interval clamps its ends. *)
Lemma flat_map_inBounds {B : Type} (g : Z -> list B) (n : nat) (lo hi : Z) :
  flat_map (fun j => if inBounds j n then g j else []) (interval lo hi)
  = flat_map g (interval (Z.max 0 lo) (Z.min (Z.of_nat n - 1) hi)).
Proof.
  remember (Z.to_nat (hi - lo + 1)) as k eqn:Hk.
  revert lo Hk. induction k as [| k IH]; intros lo Hk.
  - rewrite (interval_empty lo hi) by lia.
    rewrite interval_empty by lia. reflexivity.
  - rewrite (interval_cons lo hi) by lia. simpl.
    rewrite (IH (lo + 1)%Z) by lia.
    unfold inBounds.
    destruct (Z.leb_spec 0 lo) as [H0 | H0];
      destruct (Z.ltb_spec lo (Z.of_nat n)) as [Hn | Hn]; simpl.
    + rewrite (interval_cons (Z.max 0 lo)) by lia. simpl.
      replace (Z.max 0 lo) with lo by lia.
      replace (Z.max 0 (lo + 1)) with (lo + 1)%Z by lia. reflexivity.
    + rewrite (interval_empty (Z.max 0 lo)) by lia.
      rewrite interval_empty by lia. reflexivity.
    + replace (Z.max 0 (lo + 1)) with (Z.max 0 lo) by lia. reflexivity.
    + lia.
Qed.

Lemma flat_map_after_map {A B C : Type} (g : A -> B) (f : B -> list C)
    (l : list A) :
  flat_map f (map g l) = flat_map (fun a => f (g a)) l.
Proof. induction l as [| a l IH]; simpl; [reflexivity | now rewrite IH]. Qed.

Lemma flat_map_singleton {A B : Type} (f : A -> B) (l : list A) :
  flat_map (fun a => [f a]) l = map f l.
Proof. induction l as [| a l IH]; simpl; [reflexivity | now rewrite IH]. Qed.

(** The offsets of [-r, r] around [i] that stay inside [0, n) reach exactly
    the indices of [max(0, i - r), min(n - 1, i + r)], in order. *)
Lemma offsets_clamped {B : Type} (g : Z -> list B) (n : nat) (i r : Z) :
  flat_map (fun d => if inBounds (i + d) n then g (i + d)%Z else [])
    (interval (- r) r)
  = flat_map g (interval (Z.max 0 (i - r)) (Z.min (Z.of_nat n - 1) (i + r))).
Proof.
  rewrite <- (flat_map_after_map (Z.add i)
                (fun j => if inBounds j n then g j else [])).
  rewrite interval_shift, flat_map_inBounds.
  replace (i + - r)%Z with (i - r)%Z by lia. reflexivity.
Qed.

(** The spatial window, offset by offset, is the rectangle
    [max(0, h - r), min(H - 1, h + r)] x [max(0, w - r), min(W - 1, w + r)],
    row by row. *)
Lemma withinWindow_clamped H W r h w :
  withinWindow H W r h w
  = flat_map
      (fun h' =>
         map (fun w' => (h', w'))
           (interval (Z.max 0 (Z.of_nat w - r))
                     (Z.min (Z.of_nat W - 1) (Z.of_nat w + r))))
      (interval (Z.max 0 (Z.of_nat h - r))
                (Z.min (Z.of_nat H - 1) (Z.of_nat h + r))).
Proof.
  unfold withinWindow.
  rewrite <- (offsets_clamped
                (fun h' => map (fun w' => (h', w'))
                             (interval (Z.max 0 (Z.of_nat w - r))
                                (Z.min (Z.of_nat W - 1) (Z.of_nat w + r))))).
  apply flat_map_ext. intros dh.
  destruct (inBounds (Z.of_nat h + dh) H); simpl.
  - rewrite <- flat_map_singleton.
    apply (offsets_clamped (fun w' => [((Z.of_nat h + dh)%Z, w')])).
  - apply flat_map_nil.
Qed.

(** ** The kernel *)

Section KernelFacts.
Context {num : Type} {arith : Numeric num}.

Lemma lrnBackend_LRN4D cfg : lrnBackend "LRN4D" cfg = LRN4D cfg.
Proof. reflexivity. Qed.

Lemma length_normalize region N H W C (buf : list num) r b a bt :
  length (normalize region N H W C buf r b a bt) = N * (H * (W * C)).
Proof.
  unfold normalize.
  rewrite (length_flat_map_blocks _ (H * (W * C))), length_seq; [reflexivity |].
  intros n.
  rewrite (length_flat_map_blocks _ (W * C)), length_seq; [reflexivity |].
  intros h.
  rewrite (length_flat_map_blocks _ C), length_seq; [reflexivity |].
  intros w. now rewrite length_map, length_seq.
Qed.

(** The output buffer holds, at the offset of (n, h, w, c), the normalized
    element of (n, h, w, c). *)
Lemma lookup_normalize region N H W C (buf : list num) r b a bt n h w c :
  n < N -> h < H -> w < W -> c < C ->
  normalize region N H W C buf r b a bt !! offset H W C n h w c
  = Some (normalizeAt region H W C buf r b a bt n h w c).
Proof.
  intros Hn Hh Hw Hc. unfold normalize, offset.
  replace (((n * H + h) * W + w) * C + c)
    with (n * (H * (W * C)) + (h * (W * C) + (w * C + c))) by lia.
  rewrite (lookup_flat_map_blocks _ (H * (W * C)) _ n _ n).
  - rewrite (lookup_flat_map_blocks _ (W * C) _ h _ h).
    + rewrite (lookup_flat_map_blocks _ C _ w _ w).
      * rewrite lookup_map, lookup_seq_lt by assumption. reflexivity.
      * intros w'. now rewrite length_map, length_seq.
      * now rewrite lookup_seq_lt.
      * assumption.
    + intros h'.
      rewrite (length_flat_map_blocks _ C), length_seq; [reflexivity |].
      intros w'. now rewrite length_map, length_seq.
    + now rewrite lookup_seq_lt.
    + assert (w * C + c < W * C) by nia. lia.
  - intros n'.
    rewrite (length_flat_map_blocks _ (W * C)), length_seq; [reflexivity |].
    intros h'.
    rewrite (length_flat_map_blocks _ C), length_seq; [reflexivity |].
    intros w'. now rewrite length_map, length_seq.
  - now rewrite lookup_seq_lt.
  - assert (w * C + c < W * C) by nia.
    assert (h * (W * C) + (w * C + c) < H * (W * C)) by nia. lia.
Qed.

(** On a configuration that meets the contract the kernel returns a tensor of
    the input's shape over a new buffer. *)
Lemma LRN4D_ok cfg region buf (e : Engine num) :
  rank (inputs_x cfg) = 4 ->
  isNonNegativeInteger (radius (args cfg)) = true ->
  parseRegion (normRegion (args cfg)) = Some region ->
  store e !! dataId (inputs_x cfg) = Some buf ->
  LRN4D cfg e
  = (Ok {| dataId := fresh (dom (store e)); shape := shape (inputs_x cfg) |},
     allocated e (outputOf cfg region buf)).
Proof.
  intros Hrank Hrad Hreg Hbuf. unfold LRN4D.
  rewrite Hrank, Hrad, Hreg. simpl.
  unfold bind, assert, ret, readData, allocate. simpl. rewrite Hbuf.
  reflexivity.
Qed.

(** Whatever the kernel does, the buffers the engine already holds stay as
    they are, and so does the trace. *)
Lemma LRN4D_frame cfg (e : Engine num) :
  kernelCalls (snd (LRN4D cfg e)) = kernelCalls e /\
  forall id buf, store e !! id = Some buf ->
                 store (snd (LRN4D cfg e)) !! id = Some buf.
Proof.
  unfold LRN4D, bind, assert, ret, throw, readData, allocate.
  destruct (rank (inputs_x cfg) =? 4); simpl; [| auto].
  destruct (isNonNegativeInteger (radius (args cfg))); simpl; [| auto].
  destruct (parseRegion (normRegion (args cfg))); simpl; [| auto].
  destruct (store e !! dataId (inputs_x cfg)) eqn:Hx; simpl; [| auto].
  split; [reflexivity |]. intros id buf Hid.
  rewrite lookup_insert_ne; [exact Hid |].
  intros <-. 
  pose proof (is_fresh (dom (store e))) as Hfresh.
  apply Hfresh. apply elem_of_dom. eauto.
Qed.

(** A tensor the kernel returns lives in a buffer that did not exist. *)
Lemma LRN4D_fresh cfg (e e' : Engine num) t :
  LRN4D cfg e = (Ok t, e') ->
  store e !! dataId t = None /\ is_Some (store e' !! dataId t) /\
  shape t = shape (inputs_x cfg).
Proof.
  unfold LRN4D, bind, assert, ret, throw, readData, allocate.
  destruct (rank (inputs_x cfg) =? 4); simpl; [| discriminate].
  destruct (isNonNegativeInteger (radius (args cfg))); simpl; [| discriminate].
  destruct (parseRegion (normRegion (args cfg))); simpl; [| discriminate].
  destruct (store e !! dataId (inputs_x cfg)) eqn:Hx; simpl; [| discriminate].
  intros [= <- <-]. simpl. split; [| split].
  - apply not_elem_of_dom. apply is_fresh.
  - rewrite lookup_insert_eq. eauto.
  - reflexivity.
Qed.

End KernelFacts.

(** ** The operation over the 'LRN4D' kernel *)

Section LrnFacts.
Context {num : Type} {arith : Numeric num}.

Lemma isNonNegativeInteger_isInt a :
  isNonNegativeInteger a = true -> isInt a = true.
Proof. unfold isNonNegativeInteger. intros [Hi _]%andb_prop. exact Hi. Qed.

Lemma rank3_shape x :
  rank x = 3 -> shape x = [shape x !!! 0; shape x !!! 1; shape x !!! 2].
Proof.
  unfold rank. destruct (shape x) as [| s0 [| s1 [| s2 [| s3 l]]]];
    simpl; intros; try discriminate. reflexivity.
Qed.

Lemma rank_kernelInput x : rank x = 3 \/ rank x = 4 -> rank (kernelInput x) = 4.
Proof.
  unfold kernelInput. intros [H3 | H4].
  - rewrite H3. reflexivity.
  - destruct (rank x =? 3); [reflexivity | exact H4].
Qed.

Lemma dataId_kernelInput x : dataId (kernelInput x) = dataId x.
Proof. unfold kernelInput. destruct (rank x =? 3); reflexivity. Qed.

(** Dropping the batch dimension of a tensor shaped like the kernel's input
    gives back the caller's shape. *)
Lemma dropBatch_kernelInput x id :
  rank x = 3 ->
  dropBatch {| dataId := id; shape := shape (kernelInput x) |}
  = {| dataId := id; shape := shape x |}.
Proof.
  intros Hrank. unfold kernelInput. rewrite Hrank. simpl.
  unfold dropBatch, as3D. simpl. now rewrite <- rank3_shape.
Qed.

(** A call that meets the kernel's contract returns a tensor of the caller's
    shape over the buffer the kernel allocated. *)
Lemma lrn_ok x r b a bt s (e : Engine num) region buf :
  rank x = 3 \/ rank x = 4 ->
  isNonNegativeInteger (radius (withDefaults r b a bt s)) = true ->
  parseRegion (normRegion (withDefaults r b a bt s)) = Some region ->
  store e !! dataId x = Some buf ->
  let cfg := {| inputs_x := kernelInput x;
                args := withDefaults r b a bt s |} in
  lrn x r b a bt s e
  = (Ok {| dataId := fresh (dom (store e)); shape := shape x |},
     allocated (logCall "LRN4D" cfg e) (outputOf cfg region buf)).
Proof.
  intros Hrank Hrad Hreg Hbuf cfg. unfold lrn.
  rewrite lrn_dispatch
    by (try assumption; now apply isNonNegativeInteger_isInt).
  fold cfg. cbv zeta. unfold lrnBackend. simpl.
  rewrite (LRN4D_ok cfg region buf).
  - destruct Hrank as [H3 | H4].
    + rewrite H3. simpl. subst cfg. simpl.
      now rewrite dropBatch_kernelInput.
    + rewrite H4. simpl. subst cfg. unfold kernelInput. now rewrite H4.
  - now apply rank_kernelInput.
  - exact Hrad.
  - exact Hreg.
  - simpl. now rewrite dataId_kernelInput.
Qed.

(** The backend of the 'LRN4D' kernel keeps the engine's buffers and returns
    tensors over new ones. *)
Lemma lrnBackend_keepsBuffers : keepsBuffers (lrnBackend (num := num)).
Proof.
  intros name cfg e id buf Hid. unfold lrnBackend.
  destruct (String.eqb name "LRN4D"); [| exact Hid].
  now apply LRN4D_frame.
Qed.

Lemma lrnBackend_returnsNewBuffers :
  returnsNewBuffers (lrnBackend (num := num)).
Proof.
  intros name cfg e e' t. unfold lrnBackend.
  destruct (String.eqb name "LRN4D"); [| discriminate].
  intros Hrun. destruct (LRN4D_fresh cfg e e' t Hrun) as (Hnone & Hsome & _).
  split; assumption.
Qed.

End LrnFacts.

(** ** Argument checks *)

Lemma isInt_inject_Z (z : Z) : isInt (inject_Z z) = true.
Proof. unfold isInt. simpl. rewrite Z.rem_1_r. reflexivity. Qed.

(** C4: calling the operation with a tensor whose rank is neither 3 nor 4 (a
    rank-2 tensor, say) fails with the InvalidArgument condition of the rank
    assertion; the engine is left exactly as it was, so no kernel has been
    invoked and no buffer allocated, and no tensor is returned. *)
Theorem C4_rank_rejected_before_any_computation :
  forall {num : Type} {arith : Numeric num}
         (backend : string -> KernelConfig -> M num Tensor)
         x r b a bt s (e : Engine num),
    rank x <> 3 -> rank x <> 4 ->
    localResponseNormalization backend x r b a bt s e
    = (Err (InvalidArgument (RankNot3Or4 (rank x))), e).
Proof. intros. now apply lrn_rank_rejected. Qed.

(** A rank-2 tensor is rejected, the engine untouched. *)
Lemma C4_rank_2_rejected :
  rank t13 <> 3 /\ rank t13 <> 4 /\
  lrn t13 None None None None None engine123
  = (Err (InvalidArgument (RankNot3Or4 2)), engine123).
Proof.
  assert (rank t13 <> 3) as H3 by (unfold rank; simpl; lia).
  assert (rank t13 <> 4) as H4 by (unfold rank; simpl; lia).
  split; [exact H3 | split; [exact H4 |]].
  exact (C4_rank_rejected_before_any_computation
           lrnBackend t13 None None None None None engine123 H3 H4).
Defined.

(** C5, as the code has it: a radius that is not an integer (2.5, say) fails
    with the InvalidArgument condition of the radius assertion and leaves the
    engine as it was; an integer radius, a negative one included, passes the
    assertion and goes to the kernel invocation unchanged, the outcome of
    which is the outcome of the operation. *)
Theorem C5_radius_is_checked_for_integrality :
  forall {num : Type} {arith : Numeric num}
         (backend : string -> KernelConfig -> M num Tensor)
         x (r : number) b a bt s (e : Engine num),
    rank x = 3 \/ rank x = 4 ->
    (isInt r = false ->
     localResponseNormalization backend x (Some r) b a bt s e
     = (Err (InvalidArgument (RadiusNotInteger r)), e)) /\
    (isInt r = true ->
     localResponseNormalization backend x (Some r) b a bt s e
     = let cfg := {| inputs_x := kernelInput x;
                     args := withDefaults (Some r) b a bt s |} in
       match backend "LRN4D" cfg (logCall "LRN4D" cfg e) with
       | (Ok res, e') => (Ok (if rank x =? 3 then dropBatch res else res), e')
       | (Err err, e') => (Err err, e')
       end) /\
    (forall z : Z, isInt (inject_Z z) = true).
Proof.
  intros num arith backend x r b a bt s e Hrank. split; [| split].
  - intros Hint. now apply (lrn_radius_rejected backend x (Some r)).
  - intros Hint. now apply (lrn_dispatch backend x (Some r)).
  - apply isInt_inject_Z.
Qed.

(** Radius 2.5 is rejected, the engine untouched. *)
Lemma C5_radius_two_and_a_half_rejected :
  (rank t1113 = 3 \/ rank t1113 = 4) /\ isInt (5 # 2) = false /\
  lrn t1113 (Some (5 # 2)%Q) None None None None engine123
  = (Err (InvalidArgument (RadiusNotInteger (5 # 2))), engine123).
Proof.
  assert (rank t1113 = 3 \/ rank t1113 = 4) as Hrank by (right; reflexivity).
  split; [exact Hrank | split; [reflexivity |]].
  exact (proj1 (C5_radius_is_checked_for_integrality
                  lrnBackend t1113 (5 # 2)%Q None None None None engine123
                  Hrank) eq_refl).
Defined.

(** C5, as stated, fails at radius -1: -1 is not a non-negative integer, yet
    the radius assertion lets it through and the engine receives the kernel
    invocation, radius -1 among its arguments; the call does not end with an
    InvalidArgument and the engine untouched.  Over a backend that checks
    nothing the call returns a tensor. *)
Lemma C5_radius_minus_1_reaches_the_kernel :
  isNonNegativeInteger (-1)%Q = false /\
  isInt (-1)%Q = true /\
  kernelCalls (snd (lrn t1113 (Some (-1)%Q) None None None None engine123))
  = [("LRN4D"%string,
      {| inputs_x := t1113;
         args := {| radius := (-1)%Q; bias := 1%Q; alpha := 1%Q;
                    beta := (1 # 2)%Q; normRegion := "acrossChannels" |} |})] /\
  (forall why,
      lrn t1113 (Some (-1)%Q) None None None None engine123
      <> (Err (InvalidArgument why), engine123)) /\
  fst (localResponseNormalization echoBackend t1113 (Some (-1)%Q)
         None None None None engine123) = Ok t1113.
Proof.
  split; [reflexivity | split; [reflexivity |]].
  assert (kernelCalls
            (snd (lrn t1113 (Some (-1)%Q) None None None None engine123))
          = [("LRN4D"%string,
              {| inputs_x := t1113;
                 args := {| radius := (-1)%Q; bias := 1%Q; alpha := 1%Q;
                            beta := (1 # 2)%Q;
                            normRegion := "acrossChannels" |} |})]) as Hcalls
    by (vm_compute; reflexivity).
  split; [exact Hcalls | split; [| reflexivity]].
  intros why Heq. rewrite Heq in Hcalls. discriminate Hcalls.
Qed.

(** C6, as the code has it: the operation does not look at the region.  Its
    own InvalidArgument conditions are the rank and the radius assertions;
    once these hold, any region value, recognized or not, goes to the kernel
    invocation unchanged and the outcome of the kernel is the outcome of the
    operation. *)
Theorem C6_region_is_forwarded_unchecked :
  forall {num : Type} {arith : Numeric num}
         (backend : string -> KernelConfig -> M num Tensor)
         x r b a bt (region : string) (e : Engine num),
    localResponseNormalization backend x r b a bt (Some region) e
    = if negb ((rank x =? 4) || (rank x =? 3))
      then (Err (InvalidArgument (RankNot3Or4 (rank x))), e)
      else if negb (isInt (default 5%Q r))
      then (Err (InvalidArgument (RadiusNotInteger (default 5%Q r))), e)
      else
        let cfg :=
          {| inputs_x := kernelInput x;
             args := {| radius := default 5%Q r; bias := default 1%Q b;
                        alpha := default 1%Q a; beta := default (1 # 2)%Q bt;
                        normRegion := region |} |} in
        match backend "LRN4D" cfg (logCall "LRN4D" cfg e) with
        | (Ok res, e') => (Ok (if rank x =? 3 then dropBatch res else res), e')
        | (Err err, e') => (Err err, e')
        end.
Proof. intros. apply lrn_cases. Qed.

(** C6, as stated, fails at region "diagonal": the value is not one of the two
    recognized ones, yet the operation raises nothing of its own and the
    engine receives the kernel invocation, "diagonal" among its arguments;
    the call does not end with an InvalidArgument and the engine untouched.
    Over a backend that checks nothing the call returns a tensor. *)
Lemma C6_region_diagonal_reaches_the_kernel :
  parseRegion "diagonal" = None /\
  kernelCalls
    (snd (lrn t1113 None None None None (Some "diagonal"%string) engine123))
  = [("LRN4D"%string,
      {| inputs_x := t1113;
         args := {| radius := 5%Q; bias := 1%Q; alpha := 1%Q;
                    beta := (1 # 2)%Q; normRegion := "diagonal" |} |})] /\
  (forall why,
      lrn t1113 None None None None (Some "diagonal"%string) engine123
      <> (Err (InvalidArgument why), engine123)) /\
  fst (localResponseNormalization echoBackend t1113 None None None None
         (Some "diagonal"%string) engine123) = Ok t1113.
Proof.
  split; [reflexivity |].
  assert (kernelCalls
            (snd (lrn t1113 None None None None (Some "diagonal"%string)
                    engine123))
          = [("LRN4D"%string,
              {| inputs_x := t1113;
                 args := {| radius := 5%Q; bias := 1%Q; alpha := 1%Q;
                            beta := (1 # 2)%Q;
                            normRegion := "diagonal" |} |})]) as Hcalls
    by (vm_compute; reflexivity).
  split; [exact Hcalls | split; [| reflexivity]].
  intros why Heq. rewrite Heq in Hcalls. discriminate Hcalls.
Qed.

(** ** The rank adapter *)

(** C7: for a rank-3 input of shape (H, W, C) the operation builds the view of
    shape (1, H, W, C) over the same data, invokes the kernel on that view and
    returns the rank-3 view of the kernel's result without its batch
    dimension; the call is the call on the (1, H, W, C) view followed by that
    reshape, errors and engine included; a returned tensor has rank 3, the
    caller's. *)
Theorem C7_rank_3_round_trip :
  forall {num : Type} {arith : Numeric num}
         (backend : string -> KernelConfig -> M num Tensor)
         x r b a bt s (e : Engine num),
    rank x = 3 ->
    shape (batchOfOne x) = 1 :: shape x /\
    dataId (batchOfOne x) = dataId x /\
    localResponseNormalization backend x r b a bt s e
    = (if negb (isInt (radius (withDefaults r b a bt s)))
       then (Err (InvalidArgument
                    (RadiusNotInteger (radius (withDefaults r b a bt s)))), e)
       else
         let cfg := {| inputs_x := batchOfOne x;
                       args := withDefaults r b a bt s |} in
         match backend "LRN4D" cfg (logCall "LRN4D" cfg e) with
         | (Ok res, e') => (Ok (dropBatch res), e')
         | (Err err, e') => (Err err, e')
         end) /\
    localResponseNormalization backend x r b a bt s e
    = (res <- localResponseNormalization backend (batchOfOne x) r b a bt s ;;
       ret (dropBatch res)) e /\
    (forall t e',
        localResponseNormalization backend x r b a bt s e = (Ok t, e') ->
        rank t = 3).
Proof.
  intros num arith backend x r b a bt s e Hrank.
  assert (rank (batchOfOne x) = 4) as H4 by reflexivity.
  assert (localResponseNormalization backend x r b a bt s e
          = (if negb (isInt (radius (withDefaults r b a bt s)))
             then (Err (InvalidArgument
                          (RadiusNotInteger
                             (radius (withDefaults r b a bt s)))), e)
             else
               let cfg := {| inputs_x := batchOfOne x;
                             args := withDefaults r b a bt s |} in
               match backend "LRN4D" cfg (logCall "LRN4D" cfg e) with
               | (Ok res, e') => (Ok (dropBatch res), e')
               | (Err err, e') => (Err err, e')
               end)) as Hcall.
  { rewrite lrn_cases. unfold kernelInput. rewrite Hrank. reflexivity. }
  assert (localResponseNormalization backend x r b a bt s e
          = (res <- localResponseNormalization backend (batchOfOne x)
                      r b a bt s ;;
             ret (dropBatch res)) e) as Heq.
  { rewrite Hcall. unfold bind. rewrite lrn_cases.
    rewrite H4. simpl orb. cbn [negb].
    destruct (isInt (radius (withDefaults r b a bt s))); cbn [negb];
      [| reflexivity].
    unfold kernelInput. rewrite H4. simpl Nat.eqb. cbv zeta iota.
    destruct (backend _ _ _) as [[res | err] e']; reflexivity. }
  split; [| split; [reflexivity | split; [exact Hcall | split; [exact Heq |]]]].
  - unfold batchOfOne, as4D. simpl. now rewrite <- rank3_shape.
  - intros t e'. rewrite Hcall.
    destruct (negb (isInt (radius (withDefaults r b a bt s))));
      [discriminate |].
    cbv zeta. destruct (backend _ _ _) as [[res | err] e1]; [| discriminate].
    intros [= <- <-]. reflexivity.
Qed.

(** The round trip on the rank-3 tensor [1, 2, 3] of shape (1, 1, 3). *)
Lemma C7_rank_3_round_trip_on_t113 :
  rank t113 = 3 /\
  lrn t113 None None None None None engine123
  = (res <- lrn (batchOfOne t113) None None None None None ;;
     ret (dropBatch res)) engine123.
Proof.
  split; [reflexivity |].
  exact (proj1 (proj2 (proj2 (proj2
           (C7_rank_3_round_trip lrnBackend t113 None None None None None
              engine123 eq_refl))))).
Defined.

(** ** Defaults *)

(** C10: with every parameter omitted the operation invokes the kernel with
    radius 5, bias 1, alpha 1, beta 0.5 and region 'acrossChannels'; a
    parameter that is given is taken as it is.  The five values reach the
    kernel unchanged, in one invocation: over the 'LRN4D' kernel the trace of
    the engine grows by exactly that invocation. *)
Theorem C10_defaults_are_forwarded :
  forall {num : Type} {arith : Numeric num}
         (backend : string -> KernelConfig -> M num Tensor)
         x (e : Engine num),
    rank x = 3 \/ rank x = 4 ->
    let cfg :=
      {| inputs_x := kernelInput x;
         args := {| radius := 5%Q; bias := 1%Q; alpha := 1%Q;
                    beta := (1 # 2)%Q; normRegion := "acrossChannels" |} |} in
    localResponseNormalization backend x None None None None None e
    = match backend "LRN4D" cfg (logCall "LRN4D" cfg e) with
      | (Ok res, e') => (Ok (if rank x =? 3 then dropBatch res else res), e')
      | (Err err, e') => (Err err, e')
      end /\
    kernelCalls (snd (lrn x None None None None None e))
    = kernelCalls e ++ [("LRN4D"%string, cfg)] /\
    (forall r b a bt s,
        withDefaults (Some r) (Some b) (Some a) (Some bt) (Some s)
        = {| radius := r; bias := b; alpha := a; beta := bt;
             normRegion := s |}).
Proof.
  intros num arith backend x e Hrank cfg.
  split; [| split; [| reflexivity]].
  - now rewrite lrn_dispatch.
  - unfold lrn. rewrite lrn_dispatch by (auto; reflexivity).
    subst cfg. cbv zeta. rewrite lrnBackend_LRN4D.
    match goal with
    | |- context [LRN4D ?c ?e0] =>
        pose proof (LRN4D_frame c e0) as [Hcalls _];
        destruct (LRN4D c e0) as [[res | err] e']
    end; simpl in *; exact Hcalls.
Qed.

(** The defaults on the tensor [1, 2, 3] of shape (1, 1, 1, 3). *)
Lemma C10_defaults_on_t1113 :
  (rank t1113 = 3 \/ rank t1113 = 4) /\
  kernelCalls (snd (lrn t1113 None None None None None engine123))
  = [("LRN4D"%string,
      {| inputs_x := t1113;
         args := {| radius := 5%Q; bias := 1%Q; alpha := 1%Q;
                    beta := (1 # 2)%Q; normRegion := "acrossChannels" |} |})].
Proof.
  assert (rank t1113 = 3 \/ rank t1113 = 4) as Hrank by (right; reflexivity).
  split; [exact Hrank |].
  exact (proj1 (proj2 (C10_defaults_are_forwarded lrnBackend t1113 engine123
                         Hrank))).
Defined.

(** ** Shapes *)

Section ShapeFacts.
Context {num : Type} {arith : Numeric num}.

(** The kernel's outcome in full. *)
Lemma LRN4D_cases cfg (e : Engine num) :
  LRN4D cfg e
  = if negb (rank (inputs_x cfg) =? 4)
    then (Err (InvalidArgument (RankNot4 (rank (inputs_x cfg)))), e)
    else if negb (isNonNegativeInteger (radius (args cfg)))
    then (Err (InvalidArgument
                 (RadiusNotNonNegativeInteger (radius (args cfg)))), e)
    else match parseRegion (normRegion (args cfg)) with
         | None =>
             (Err (InvalidArgument
                     (RegionNotRecognized (normRegion (args cfg)))), e)
         | Some region =>
             match store e !! dataId (inputs_x cfg) with
             | None => (Err (EngineError "tensor has no data"), e)
             | Some buf =>
                 (Ok {| dataId := fresh (dom (store e));
                        shape := shape (inputs_x cfg) |},
                  allocated e (outputOf cfg region buf))
             end
         end.
Proof.
  unfold LRN4D, bind, assert, ret, throw, readData, allocate.
  destruct (rank (inputs_x cfg) =? 4); simpl; [| reflexivity].
  destruct (isNonNegativeInteger (radius (args cfg))); simpl; [| reflexivity].
  destruct (parseRegion (normRegion (args cfg))); simpl; [| reflexivity].
  destruct (store e !! dataId (inputs_x cfg)); reflexivity.
Qed.

(** A backend whose kernel returns tensors of its input's shape makes the
    operation return tensors of the caller's shape. *)
Lemma lrn_shape (backend : string -> KernelConfig -> M num Tensor) :
  (forall cfg e t e',
      backend "LRN4D" cfg e = (Ok t, e') -> shape t = shape (inputs_x cfg)) ->
  forall x r b a bt s e t e',
    localResponseNormalization backend x r b a bt s e = (Ok t, e') ->
    shape t = shape x.
Proof.
  intros Hkernel x r b a bt s e t e'. rewrite lrn_cases.
  destruct ((rank x =? 4) || (rank x =? 3)) eqn:Hrank; cbn [negb];
    [| discriminate].
  destruct (isInt (radius (withDefaults r b a bt s))); cbn [negb];
    [| discriminate].
  cbv zeta.
  match goal with
  | |- context [backend "LRN4D" ?c ?e0] =>
      pose proof (Hkernel c e0) as Hshape;
      destruct (backend "LRN4D" c e0) as [[res | err] e1]
  end; [| discriminate].
  specialize (Hshape res e1 eq_refl). simpl in Hshape.
  destruct (rank x =? 3) eqn:H3; intros [= <- <-].
  - apply Nat.eqb_eq in H3. unfold dropBatch, as3D. simpl.
    rewrite Hshape. unfold kernelInput. rewrite H3. simpl.
    now rewrite <- rank3_shape.
  - rewrite Hshape. unfold kernelInput. now rewrite H3.
Qed.

End ShapeFacts.

(** C1: the tensor the operation returns has the shape of the input, rank and
    every dimension: for any backend whose kernel keeps the shape of its
    input; and over the 'LRN4D' kernel every call on a tensor of rank 3 or 4
    with data, a non-negative integer radius and a recognized region does
    return such a tensor. *)
Theorem C1_output_has_the_shape_of_the_input :
  forall {num : Type} {arith : Numeric num},
    (forall backend : string -> KernelConfig -> M num Tensor,
        (forall cfg e t e',
            backend "LRN4D" cfg e = (Ok t, e') ->
            shape t = shape (inputs_x cfg)) ->
        forall x r b a bt s e t e',
          localResponseNormalization backend x r b a bt s e = (Ok t, e') ->
          shape t = shape x /\ rank t = rank x) /\
    (forall x r b a bt s (e : Engine num),
        rank x = 3 \/ rank x = 4 ->
        validTensor e x ->
        isNonNegativeInteger (radius (withDefaults r b a bt s)) = true ->
        is_Some (parseRegion (normRegion (withDefaults r b a bt s))) ->
        exists t e',
          lrn x r b a bt s e = (Ok t, e') /\
          shape t = shape x /\ rank t = rank x).
Proof.
  intros num arith. split.
  - intros backend Hkernel x r b a bt s e t e' Hrun.
    assert (shape t = shape x) as Hshape by (eapply lrn_shape; eauto).
    split; [exact Hshape | unfold rank; now rewrite Hshape].
  - intros x r b a bt s e Hrank (buf & Hbuf & _) Hrad [region Hreg].
    eexists _, _. split.
    + apply (lrn_ok x r b a bt s e region buf); assumption.
    + split; reflexivity.
Qed.

(** The rank-3 tensor [1, 2, 3] of shape (1, 1, 3) comes back with its
    shape. *)
Lemma C1_shape_on_t113 :
  exists t e',
    lrn t113 None None None None None engine123 = (Ok t, e') /\
    shape t = [1; 1; 3] /\ rank t = 3.
Proof.
  apply (proj2 (@C1_output_has_the_shape_of_the_input Formula FormulaNumeric)
           t113 None None None None None engine123).
  - left; reflexivity.
  - exists vec123. split; reflexivity.
  - reflexivity.
  - exists AcrossChannels. reflexivity.
Defined.

(** ** Effects *)

Section EffectFacts.
Context {num : Type} {arith : Numeric num}.

(** The outcome of the operation over the 'LRN4D' kernel, in full. *)
Lemma lrn_over_kernel_cases x r b a bt s (e : Engine num) :
  lrn x r b a bt s e
  = if negb ((rank x =? 4) || (rank x =? 3))
    then (Err (InvalidArgument (RankNot3Or4 (rank x))), e)
    else if negb (isInt (radius (withDefaults r b a bt s)))
    then (Err (InvalidArgument
                 (RadiusNotInteger (radius (withDefaults r b a bt s)))), e)
    else
      let cfg := {| inputs_x := kernelInput x;
                    args := withDefaults r b a bt s |} in
      let e0 := logCall "LRN4D" cfg e in
      if negb (isNonNegativeInteger (radius (withDefaults r b a bt s)))
      then (Err (InvalidArgument
                   (RadiusNotNonNegativeInteger
                      (radius (withDefaults r b a bt s)))), e0)
      else match parseRegion (normRegion (withDefaults r b a bt s)) with
           | None =>
               (Err (InvalidArgument
                       (RegionNotRecognized
                          (normRegion (withDefaults r b a bt s)))), e0)
           | Some region =>
               match store e !! dataId x with
               | None => (Err (EngineError "tensor has no data"), e0)
               | Some buf =>
                   (Ok {| dataId := fresh (dom (store e)); shape := shape x |},
                    allocated e0 (outputOf cfg region buf))
               end
           end.
Proof.
  unfold lrn. rewrite lrn_cases.
  destruct ((rank x =? 4) || (rank x =? 3)) eqn:Hrank; cbn [negb];
    [| reflexivity].
  assert (rank x = 3 \/ rank x = 4) as Hr.
  { apply orb_prop in Hrank as [H4 | H3]; [right | left];
      now apply Nat.eqb_eq. }
  destruct (isInt (radius (withDefaults r b a bt s))); cbn [negb];
    [| reflexivity].
  cbv zeta. rewrite lrnBackend_LRN4D, LRN4D_cases.
  cbn [inputs_x args].
  rewrite (rank_kernelInput x Hr). simpl Nat.eqb. cbn [negb].
  destruct (isNonNegativeInteger (radius (withDefaults r b a bt s)));
    cbn [negb]; [| reflexivity].
  destruct (parseRegion (normRegion (withDefaults r b a bt s)));
    [| reflexivity].
  rewrite dataId_kernelInput. cbn [store logCall].
  destruct (store e !! dataId x); [| reflexivity].
  destruct Hr as [H3 | H4].
  - rewrite H3. simpl Nat.eqb. cbv iota.
    now rewrite dropBatch_kernelInput.
  - rewrite H4. simpl Nat.eqb. cbv iota.
    unfold kernelInput. rewrite H4. reflexivity.
Qed.

End EffectFacts.

(** C9: the operation has no side effect on tensors.  It touches no buffer
    itself and returns the kernel's tensor or a view of it: over any backend
    whose kernels keep the engine's buffers and return tensors over new ones,
    whatever the call does, every buffer the engine held before it, the
    input's among them, has the same contents after it, and a returned tensor
    is over a buffer that did not exist before the call, so not over the
    input's.  The 'LRN4D' kernel is such a backend; over it the outcome does
    not depend on what the engine did before: from any two engines that hold
    the same data for the input, the call gives the same error or tensors of
    the same shape and contents. *)
Theorem C9_no_side_effects :
  forall {num : Type} {arith : Numeric num},
    (forall backend : string -> KernelConfig -> M num Tensor,
        keepsBuffers backend ->
        returnsNewBuffers backend ->
        forall x r b a bt s (e : Engine num),
          (forall id buf,
              store e !! id = Some buf ->
              store (snd (localResponseNormalization backend x r b a bt s e))
                !! id = Some buf) /\
          (forall t e',
              localResponseNormalization backend x r b a bt s e = (Ok t, e') ->
              store e !! dataId t = None /\
              is_Some (store e' !! dataId t) /\
              (is_Some (store e !! dataId x) -> dataId t <> dataId x))) /\
    keepsBuffers (lrnBackend (num := num)) /\
    returnsNewBuffers (lrnBackend (num := num)) /\
    (forall x r b a bt s (e e2 : Engine num),
        store e2 !! dataId x = store e !! dataId x ->
        sameOutcome (lrn x r b a bt s e) (lrn x r b a bt s e2)).
Proof.
  intros num arith. split; [| split; [| split]].
  - intros backend Hkeeps Hnew x r b a bt s e. split.
    + now apply lrn_keeps_buffers.
    + intros t e' Hrun.
      destruct (lrn_returns_new_buffer backend x r b a bt s e t e' Hnew Hrun)
        as [Hnone Hsome].
      split; [exact Hnone | split; [exact Hsome |]].
      intros [buf Hbuf] Heq. rewrite Heq in Hnone. congruence.
  - apply lrnBackend_keepsBuffers.
  - apply lrnBackend_returnsNewBuffers.
  - intros x r b a bt s e e2 Hsame.
    rewrite !lrn_over_kernel_cases. unfold sameOutcome.
    destruct (negb ((rank x =? 4) || (rank x =? 3))); [reflexivity |].
    destruct (negb (isInt (radius (withDefaults r b a bt s))));
      [reflexivity |].
    cbv zeta.
    destruct (negb (isNonNegativeInteger (radius (withDefaults r b a bt s))));
      [reflexivity |].
    destruct (parseRegion (normRegion (withDefaults r b a bt s)));
      [| reflexivity].
    rewrite Hsame.
    destruct (store e !! dataId x); [| reflexivity].
    split; [reflexivity |].
    unfold allocated. cbn [store logCall dataId].
    now rewrite !lookup_insert_eq.
Qed.

(** On the tensor [1, 2, 3]: its buffer is as it was after the call, and a
    returned tensor is over another. *)
Lemma C9_no_side_effects_on_t1113 :
  store engine123 !! 0 = Some vec123 /\
  store (snd (lrn t1113 None None None None None engine123)) !! 0
  = Some vec123 /\
  forall t e',
    lrn t1113 None None None None None engine123 = (Ok t, e') ->
    dataId t <> 0.
Proof.
  assert (store engine123 !! 0 = Some vec123) as Hbuf by reflexivity.
  destruct (@C9_no_side_effects Formula FormulaNumeric)
    as (Hop & Hkeeps & Hnew & _).
  destruct (Hop lrnBackend Hkeeps Hnew t1113 None None None None None
              engine123) as [Hframe Hfresh].
  split; [exact Hbuf | split; [exact (Hframe 0 vec123 Hbuf) |]].
  intros t e' Hrun.
  destruct (Hfresh t e' Hrun) as (_ & _ & Hne).
  apply Hne. exists vec123. exact Hbuf.
Defined.

(** ** Elements *)

Section ElementFacts.
Context {num : Type} {arith : Numeric num}.

(** A call on a rank-4 tensor that meets the kernel's contract returns a
    tensor whose buffer holds the normalized element of every index. *)
Lemma lrn_elements x N H W C buf r b a bt s region (e : Engine num) :
  shape x = [N; H; W; C] ->
  store e !! dataId x = Some buf ->
  isNonNegativeInteger r = true ->
  parseRegion s = Some region ->
  exists t e' out,
    lrn x (Some r) (Some b) (Some a) (Some bt) (Some s) e = (Ok t, e') /\
    shape t = [N; H; W; C] /\
    store e' !! dataId t = Some out /\
    length out = N * (H * (W * C)) /\
    forall n h w c,
      n < N -> h < H -> w < W -> c < C ->
      out !! offset H W C n h w c
      = Some (normalizeAt region H W C buf (toInt r)
                (ofNumber b) (ofNumber a) (ofNumber bt) n h w c).
Proof.
  intros Hshape Hbuf Hrad Hreg.
  assert (rank x = 4) as Hrank by (unfold rank; now rewrite Hshape).
  assert (kernelInput x = x) as Hin by (unfold kernelInput; now rewrite Hrank).
  eexists _, _, _. split; [| split; [| split; [| split]]].
  - apply (lrn_ok x (Some r) (Some b) (Some a) (Some bt) (Some s) e region buf);
      auto.
  - exact Hshape.
  - unfold allocated. cbn [store logCall dataId]. apply lookup_insert_eq.
  - unfold outputOf. cbn [inputs_x args]. rewrite Hin, Hshape. simpl.
    apply length_normalize.
  - intros n h w c Hn Hh Hw Hc. unfold outputOf. cbn [inputs_x args].
    rewrite Hin, Hshape. simpl.
    now apply lookup_normalize.
Qed.

End ElementFacts.

Lemma Q2R_1 : Q2R 1 = 1%R.
Proof. unfold Q2R. simpl. field. Qed.

Lemma Q2R_half : Q2R (1 # 2) = (/ 2)%R.
Proof. unfold Q2R. simpl. field. Qed.

(** The scenario of the spec over the reals. *)
Lemma across_real_example :
  exists t e',
    lrn t1113 (Some 1%Q) (Some 1%Q) (Some 1%Q) (Some (1 # 2)%Q)
      (Some "acrossChannels"%string) realEngine123 = (Ok t, e') /\
    shape t = [1; 1; 1; 3] /\
    store e' !! dataId t
    = Some [(1 / sqrt 6)%R; (2 / sqrt 15)%R; (3 / sqrt 14)%R].
Proof.
  eexists _, _. split; [| split].
  - apply (lrn_ok t1113 (Some 1%Q) (Some 1%Q) (Some 1%Q) (Some (1 # 2)%Q)
             (Some "acrossChannels"%string) realEngine123 AcrossChannels
             [1%R; 2%R; 3%R]); try reflexivity.
    right; reflexivity.
  - reflexivity.
  - unfold allocated. cbn [store logCall dataId]. rewrite lookup_insert_eq.
    f_equal. unfold outputOf. cbn [inputs_x args kernelInput].
    cbv - [Rplus Rmult Rdiv Rpower Q2R IZR sqrt Rinv].
    rewrite Q2R_1, Q2R_half.
    replace (1 + 1 * (1 * 1 + 2 * 2))%R with 6%R by lra.
    replace (1 + 1 * (1 * 1 + 2 * 2 + 3 * 3))%R with 15%R by lra.
    replace (1 + 1 * (2 * 2 + 3 * 3))%R with 14%R by lra.
    rewrite !Rpower_sqrt by lra. reflexivity.
Qed.

Lemma In_acrossWindow C r c c' :
  In c' (acrossWindow C r c)
  <-> (0 <= c' < Z.of_nat C /\ Z.of_nat c - r <= c' <= Z.of_nat c + r)%Z.
Proof. unfold acrossWindow. rewrite elem_of_interval. lia. Qed.

(** C2: in AcrossChannels mode the element at (n, h, w, c) of the result is
    x[n,h,w,c] / (bias + alpha * sumSq)^beta, sumSq being the sum of the
    squares of x[n,h,w,c'] over the channels c' of
    [max(0, c - radius), min(C - 1, c + radius)]; the window holds exactly the
    channels of the tensor within radius of c (no wraparound, no padding); with
    C = 3 and radius 5 every window is [0, 2]; and on (1,1,1,3) = [1,2,3] with
    radius 1, bias 1, alpha 1, beta 0.5 the result is
    [1/sqrt 6, 2/sqrt 15, 3/sqrt 14]. *)
Theorem C2_across_channels_formula :
  (forall {num : Type} {arith : Numeric num} x N H W C buf r b a bt
          (e : Engine num),
      shape x = [N; H; W; C] ->
      store e !! dataId x = Some buf ->
      isNonNegativeInteger r = true ->
      exists t e' out,
        lrn x (Some r) (Some b) (Some a) (Some bt)
          (Some "acrossChannels"%string) e = (Ok t, e') /\
        shape t = [N; H; W; C] /\
        store e' !! dataId t = Some out /\
        forall n h w c,
          n < N -> h < H -> w < W -> c < C ->
          out !! offset H W C n h w c
          = Some
              (ndiv (at4 H W C buf n h w c)
                 (npow
                    (nadd (ofNumber b)
                       (nmul (ofNumber a)
                          (sum
                             (map (fun c' =>
                                     square (at4 H W C buf n h w (Z.to_nat c')))
                                (interval
                                   (Z.max 0 (Z.of_nat c - toInt r))
                                   (Z.min (Z.of_nat C - 1)
                                      (Z.of_nat c + toInt r)))))))
                    (ofNumber bt)))) /\
  (forall C r c c',
      In c' (acrossWindow C r c)
      <-> (0 <= c' < Z.of_nat C /\ Z.of_nat c - r <= c' <= Z.of_nat c + r)%Z) /\
  (forall c, c < 3 -> acrossWindow 3 5 c = [0; 1; 2]%Z) /\
  (exists t e',
      lrn t1113 (Some 1%Q) (Some 1%Q) (Some 1%Q) (Some (1 # 2)%Q)
        (Some "acrossChannels"%string) realEngine123 = (Ok t, e') /\
      shape t = [1; 1; 1; 3] /\
      store e' !! dataId t
      = Some [(1 / sqrt 6)%R; (2 / sqrt 15)%R; (3 / sqrt 14)%R]).
Proof.
  split; [| split; [| split]].
  - intros num arith x N H W C buf r b a bt e Hshape Hbuf Hrad.
    destruct (lrn_elements x N H W C buf r b a bt "acrossChannels"
                AcrossChannels e Hshape Hbuf Hrad eq_refl)
      as (t & e' & out & Hrun & Hsh & Hout & _ & Hel).
    exists t, e', out. split; [exact Hrun | split; [exact Hsh |]].
    split; [exact Hout |].
    intros n h w c Hn Hh Hw Hc. rewrite (Hel n h w c) by assumption.
    reflexivity.
  - apply In_acrossWindow.
  - intros c Hc.
    destruct c as [| [| [| c]]]; [reflexivity | reflexivity | reflexivity | lia].
  - exact across_real_example.
Qed.

(** The first element of the scenario, as the formula it is computed by. *)
Lemma C2_across_channels_on_t1113 :
  exists t e' out,
    lrn t1113 (Some 1%Q) (Some 1%Q) (Some 1%Q) (Some (1 # 2)%Q)
      (Some "acrossChannels"%string) engine123 = (Ok t, e') /\
    shape t = [1; 1; 1; 3] /\
    store e' !! dataId t = Some out /\
    out !! 0
    = Some (Div (Lit 1%Q)
              (Pow (Add (Lit 1%Q)
                      (Mul (Lit 1%Q)
                         (Add (Mul (Lit 1%Q) (Lit 1%Q))
                            (Mul (Lit 2%Q) (Lit 2%Q)))))
                 (Lit (1 # 2)%Q))).
Proof.
  destruct (proj1 C2_across_channels_formula Formula FormulaNumeric
              t1113 1 1 1 3 vec123 1%Q 1%Q 1%Q (1 # 2)%Q engine123
              eq_refl eq_refl eq_refl)
    as (t & e' & out & Hrun & Hsh & Hout & Hel).
  exists t, e', out. split; [exact Hrun | split; [exact Hsh |]].
  split; [exact Hout |].
  apply (Hel 0 0 0 0); lia.
Defined.

Lemma In_withinWindow H W r h w h' w' :
  In (h', w') (withinWindow H W r h w)
  <-> exists dh dw,
        (- r <= dh <= r /\ - r <= dw <= r /\
         h' = Z.of_nat h + dh /\ w' = Z.of_nat w + dw /\
         0 <= h' < Z.of_nat H /\ 0 <= w' < Z.of_nat W)%Z.
Proof.
  rewrite withinWindow_clamped, in_flat_map. split.
  - intros (h0 & Hh0 & Hin). apply in_map_iff in Hin as (w0 & [= <- <-] & Hw0).
    apply elem_of_interval in Hh0, Hw0.
    exists (h0 - Z.of_nat h)%Z, (w0 - Z.of_nat w)%Z. lia.
  - intros (dh & dw & Hdh & Hdw & -> & -> & Hh & Hw).
    exists (Z.of_nat h + dh)%Z. split.
    + apply elem_of_interval. lia.
    + apply in_map. apply elem_of_interval. lia.
Qed.

(** C3: in WithinChannel mode the element at (n, h, w, c) of the result is
    x[n,h,w,c] / (bias + alpha * sumSq)^beta, sumSq being the sum of the
    squares of x[n,h',w',c] over the positions (h', w') of the window, at the
    same channel c; the window holds exactly the positions (h + dh, w + dw),
    dh and dw in [-radius, radius], that lie inside the tensor, which is the
    rectangle [max(0, h - radius), min(H - 1, h + radius)] x
    [max(0, w - radius), min(W - 1, w + radius)]. *)
Theorem C3_within_channel_formula :
  (forall {num : Type} {arith : Numeric num} x N H W C buf r b a bt
          (e : Engine num),
      shape x = [N; H; W; C] ->
      store e !! dataId x = Some buf ->
      isNonNegativeInteger r = true ->
      exists t e' out,
        lrn x (Some r) (Some b) (Some a) (Some bt)
          (Some "withinChannel"%string) e = (Ok t, e') /\
        shape t = [N; H; W; C] /\
        store e' !! dataId t = Some out /\
        forall n h w c,
          n < N -> h < H -> w < W -> c < C ->
          out !! offset H W C n h w c
          = Some
              (ndiv (at4 H W C buf n h w c)
                 (npow
                    (nadd (ofNumber b)
                       (nmul (ofNumber a)
                          (sum
                             (map (fun p =>
                                     square (at4 H W C buf n
                                               (Z.to_nat (fst p))
                                               (Z.to_nat (snd p)) c))
                                (withinWindow H W (toInt r) h w)))))
                    (ofNumber bt)))) /\
  (forall H W r h w h' w',
      In (h', w') (withinWindow H W r h w)
      <-> exists dh dw,
            (- r <= dh <= r /\ - r <= dw <= r /\
             h' = Z.of_nat h + dh /\ w' = Z.of_nat w + dw /\
             0 <= h' < Z.of_nat H /\ 0 <= w' < Z.of_nat W)%Z) /\
  (forall H W r h w,
      withinWindow H W r h w
      = flat_map
          (fun h' =>
             map (fun w' => (h', w'))
               (interval (Z.max 0 (Z.of_nat w - r))
                         (Z.min (Z.of_nat W - 1) (Z.of_nat w + r))))
          (interval (Z.max 0 (Z.of_nat h - r))
                    (Z.min (Z.of_nat H - 1) (Z.of_nat h + r)))).
Proof.
  split; [| split].
  - intros num arith x N H W C buf r b a bt e Hshape Hbuf Hrad.
    destruct (lrn_elements x N H W C buf r b a bt "withinChannel"
                WithinChannel e Hshape Hbuf Hrad eq_refl)
      as (t & e' & out & Hrun & Hsh & Hout & _ & Hel).
    exists t, e', out. split; [exact Hrun | split; [exact Hsh |]].
    split; [exact Hout |].
    intros n h w c Hn Hh Hw Hc. rewrite (Hel n h w c) by assumption.
    reflexivity.
  - apply In_withinWindow.
  - apply withinWindow_clamped.
Qed.

(** On the 2 x 2 tensor with radius 1 every window is the whole plane. *)
Lemma C3_within_channel_on_t1221 :
  exists t e' out,
    lrn t1221 (Some 1%Q) (Some 1%Q) (Some 1%Q) (Some (1 # 2)%Q)
      (Some "withinChannel"%string) engine1234 = (Ok t, e') /\
    shape t = [1; 2; 2; 1] /\
    store e' !! dataId t = Some out /\
    out !! 3
    = Some (Div (Lit 4%Q)
              (Pow (Add (Lit 1%Q)
                      (Mul (Lit 1%Q)
                         (Add (Add (Add (Mul (Lit 1%Q) (Lit 1%Q))
                                      (Mul (Lit 2%Q) (Lit 2%Q)))
                                 (Mul (Lit 3%Q) (Lit 3%Q)))
                            (Mul (Lit 4%Q) (Lit 4%Q)))))
                 (Lit (1 # 2)%Q))).
Proof.
  destruct (proj1 C3_within_channel_formula Formula FormulaNumeric
              t1221 1 2 2 1 [Lit 1%Q; Lit 2%Q; Lit 3%Q; Lit 4%Q]
              1%Q 1%Q 1%Q (1 # 2)%Q engine1234
              eq_refl eq_refl eq_refl)
    as (t & e' & out & Hrun & Hsh & Hout & Hel).
  exists t, e', out. split; [exact Hrun | split; [exact Hsh |]].
  split; [exact Hout |].
  apply (Hel 0 1 1 0); lia.
Defined.

(** C8: with radius 0 the two modes agree: in either, the element at
    (n, h, w, c) of the result is
    x[n,h,w,c] / (bias + alpha * x[n,h,w,c]^2)^beta, the window being the
    element alone. *)
Theorem C8_radius_0_is_elementwise :
  forall {num : Type} {arith : Numeric num} x N H W C buf b a bt s
         (e : Engine num),
    s = "acrossChannels"%string \/ s = "withinChannel"%string ->
    shape x = [N; H; W; C] ->
    store e !! dataId x = Some buf ->
    exists t e' out,
      lrn x (Some 0%Q) (Some b) (Some a) (Some bt) (Some s) e = (Ok t, e') /\
      shape t = [N; H; W; C] /\
      store e' !! dataId t = Some out /\
      forall n h w c,
        n < N -> h < H -> w < W -> c < C ->
        out !! offset H W C n h w c
        = Some
            (ndiv (at4 H W C buf n h w c)
               (npow
                  (nadd (ofNumber b)
                     (nmul (ofNumber a) (square (at4 H W C buf n h w c))))
                  (ofNumber bt))).
Proof.
  intros num arith x N H W C buf b a bt s e Hs Hshape Hbuf.
  assert (exists region, parseRegion s = Some region) as [region Hreg].
  { destruct Hs as [-> | ->]; eexists; reflexivity. }
  destruct (lrn_elements x N H W C buf 0%Q b a bt s region e
              Hshape Hbuf eq_refl Hreg)
    as (t & e' & out & Hrun & Hsh & Hout & _ & Hel).
  exists t, e', out. split; [exact Hrun | split; [exact Hsh |]].
  split; [exact Hout |].
  intros n h w c Hn Hh Hw Hc. rewrite (Hel n h w c) by assumption.
  unfold normalizeAt, sumSq. change (toInt 0%Q) with 0%Z.
  destruct region.
  - rewrite acrossWindow_radius_0 by assumption. simpl.
    now rewrite Nat2Z.id.
  - rewrite withinWindow_radius_0 by assumption. simpl.
    now rewrite !Nat2Z.id.
Qed.

(** The last element of [1, 2, 3] with radius 0, within channel. *)
Lemma C8_radius_0_on_t1113 :
  exists t e' out,
    lrn t1113 (Some 0%Q) (Some 1%Q) (Some 1%Q) (Some (1 # 2)%Q)
      (Some "withinChannel"%string) engine123 = (Ok t, e') /\
    shape t = [1; 1; 1; 3] /\
    store e' !! dataId t = Some out /\
    out !! 2
    = Some (Div (Lit 3%Q)
              (Pow (Add (Lit 1%Q) (Mul (Lit 1%Q) (Mul (Lit 3%Q) (Lit 3%Q))))
                 (Lit (1 # 2)%Q))).
Proof.
  destruct (C8_radius_0_is_elementwise t1113 1 1 1 3 vec123
              1%Q 1%Q (1 # 2)%Q "withinChannel" engine123
              (or_intror eq_refl) eq_refl eq_refl)
    as (t & e' & out & Hrun & Hsh & Hout & Hel).
  exists t, e', out. split; [exact Hrun | split; [exact Hsh |]].
  split; [exact Hout |].
  apply (Hel 0 0 0 2); lia.
Defined.

(** ** Further properties of the operation *)

Section MoreOperationFacts.
Context {num : Type} {arith : Numeric num}.
Variable backend : string -> KernelConfig -> M num Tensor.


End MoreOperationFacts.








(** ** The reshapes *)

Lemma dropBatch_batchOfOne x : rank x = 3 -> dropBatch (batchOfOne x) = x.
Proof.
  destruct x as [id shp]. unfold rank. simpl.
  destruct shp as [| s0 [| s1 [| s2 [| s3 l]]]]; simpl; intros;
    try discriminate.
  reflexivity.
Qed.

Lemma sizeOf_batchOfOne x :
  rank x = 3 -> sizeOf (shape (batchOfOne x)) = sizeOf (shape x).
Proof.
  destruct x as [id shp]. unfold rank, batchOfOne, as4D, sizeOf. simpl.
  destruct shp as [| s0 [| s1 [| s2 [| s3 l]]]]; simpl; intros;
    try discriminate.
  lia.
Qed.

Lemma sizeOf_dropBatch res :
  rank res = 4 ->
  sizeOf (shape res) = (shape res !!! 0) * sizeOf (shape (dropBatch res)).
Proof.
  unfold rank, dropBatch, as3D, sizeOf.
  destruct (shape res) as [| s0 [| s1 [| s2 [| s3 [| s4 l]]]]]; simpl; intros;
    try discriminate.
  reflexivity.
Qed.

(** X4: the two reshapes of the rank-3 path undo each other: dropping the
    batch dimension of the batch-of-one view of a rank-3 tensor gives the
    tensor back, shape and data; so over a kernel that returns the tensor it
    is given, the operation returns the caller's tensor, of rank 3 or 4. *)
Theorem X4_reshape_round_trip :
  forall {num : Type} {arith : Numeric num} x r b a bt s (e : Engine num),
    rank x = 3 \/ rank x = 4 ->
    isInt (radius (withDefaults r b a bt s)) = true ->
    (rank x = 3 -> dropBatch (batchOfOne x) = x) /\
    localResponseNormalization echoBackend x r b a bt s e
    = (Ok x,
       logCall "LRN4D"
         {| inputs_x := kernelInput x; args := withDefaults r b a bt s |} e).
Proof.
  intros num arith x r b a bt s e Hrank Hint.
  split; [apply dropBatch_batchOfOne |].
  rewrite lrn_dispatch by assumption. cbv zeta. unfold echoBackend, ret.
  cbn [inputs_x]. unfold kernelInput.
  destruct (rank x =? 3) eqn:H3; [| reflexivity].
  apply Nat.eqb_eq in H3. now rewrite dropBatch_batchOfOne.
Qed.

(** The rank-3 tensor [1, 2, 3] comes back as it is. *)
Lemma X4_round_trip_on_t113 :
  (rank t113 = 3 \/ rank t113 = 4) /\
  fst (localResponseNormalization echoBackend t113 None None None None None
         engine123) = Ok t113.
Proof.
  assert (rank t113 = 3 \/ rank t113 = 4) as Hrank by (left; reflexivity).
  split; [exact Hrank |].
  exact (f_equal fst
           (proj2 (X4_reshape_round_trip t113 None None None None None
                     engine123 Hrank eq_refl))).
Defined.

(** X5: the reshapes the operation asks for keep the number of elements when
    the batch is one: the batch-of-one view of a rank-3 tensor has as many
    elements as the tensor; a rank-4 result has its batch size times the
    elements of its rank-3 view, so as many when it has the shape of the
    kernel's input, and the view then has the caller's shape. *)
Theorem X5_reshapes_keep_the_element_count :
  (forall x,
      rank x = 3 -> sizeOf (shape (batchOfOne x)) = sizeOf (shape x)) /\
  (forall res,
      rank res = 4 ->
      sizeOf (shape res)
      = (shape res !!! 0) * sizeOf (shape (dropBatch res))) /\
  (forall x res,
      rank x = 3 ->
      shape res = shape (batchOfOne x) ->
      shape (dropBatch res) = shape x /\
      sizeOf (shape (dropBatch res)) = sizeOf (shape res)).
Proof.
  split; [| split].
  - apply sizeOf_batchOfOne.
  - apply sizeOf_dropBatch.
  - intros x res Hrank Hshape.
    assert (shape (dropBatch res) = shape x) as Hback.
    { unfold dropBatch, as3D. simpl. rewrite Hshape. simpl.
      now rewrite <- rank3_shape. }
    split; [exact Hback |].
    rewrite Hback, Hshape. symmetry. now apply sizeOf_batchOfOne.
Qed.

(** A 2 x 3 x 4 tensor and its batch-of-one view hold 24 elements each. *)
Lemma X5_element_count_of_2_3_4 :
  sizeOf (shape (batchOfOne {| dataId := 0; shape := [2; 3; 4] |})) = 24.
Proof.
  exact (proj1 X5_reshapes_keep_the_element_count
           {| dataId := 0; shape := [2; 3; 4] |} eq_refl).
Defined.

(** ** Valid tensors and chained calls *)

Section ValidityFacts.
Context {num : Type} {arith : Numeric num}.

(** The 'LRN4D' kernel returns tensors of its input's shape with as many
    elements as the shape says. *)
Lemma lrnBackend_returnsValidTensors :
  returnsValidTensors (lrnBackend (num := num)).
Proof.
  intros cfg e e' t. rewrite lrnBackend_LRN4D, LRN4D_cases.
  destruct (rank (inputs_x cfg) =? 4) eqn:Hrank; cbn [negb]; [| discriminate].
  destruct (negb (isNonNegativeInteger (radius (args cfg))));
    [discriminate |].
  destruct (parseRegion (normRegion (args cfg))) as [region |];
    [| discriminate].
  destruct (store e !! dataId (inputs_x cfg)) as [buf |]; [| discriminate].
  intros [= <- <-]. split; [reflexivity |].
  exists (outputOf cfg region buf). split.
  - unfold allocated. simpl. apply lookup_insert_eq.
  - unfold outputOf. rewrite length_normalize. simpl.
    apply Nat.eqb_eq in Hrank. unfold rank in Hrank.
    destruct (shape (inputs_x cfg)) as [| s0 [| s1 [| s2 [| s3 [| s4 l]]]]];
      try discriminate.
    simpl. lia.
Qed.

(** What a successful call over the 'LRN4D' kernel went through. *)
Lemma lrn_ok_inv x r b a bt s (e e' : Engine num) t :
  lrn x r b a bt s e = (Ok t, e') ->
  (rank x = 3 \/ rank x = 4) /\
  isNonNegativeInteger (radius (withDefaults r b a bt s)) = true /\
  exists region buf,
    parseRegion (normRegion (withDefaults r b a bt s)) = Some region /\
    store e !! dataId x = Some buf /\
    t = {| dataId := fresh (dom (store e)); shape := shape x |} /\
    e' = allocated
           (logCall "LRN4D"
              {| inputs_x := kernelInput x;
                 args := withDefaults r b a bt s |} e)
           (outputOf {| inputs_x := kernelInput x;
                        args := withDefaults r b a bt s |} region buf).
Proof.
  rewrite lrn_over_kernel_cases.
  destruct ((rank x =? 4) || (rank x =? 3)) eqn:Hrank; cbn [negb];
    [| discriminate].
  destruct (negb (isInt (radius (withDefaults r b a bt s))));
    [discriminate |].
  cbv zeta.
  destruct (isNonNegativeInteger (radius (withDefaults r b a bt s)));
    cbn [negb]; [| discriminate].
  destruct (parseRegion (normRegion (withDefaults r b a bt s)))
    as [region |]; [| discriminate].
  destruct (store e !! dataId x) as [buf |]; [| discriminate].
  intros [= <- <-]. split; [| split; [reflexivity |]].
  - apply orb_prop in Hrank as [H4 | H3]; [right | left];
      now apply Nat.eqb_eq.
  - exists region, buf. repeat split.
Qed.

End ValidityFacts.

(** X6: the operation hands back valid tensors: over a backend whose kernel
    returns a tensor of its input's shape that the engine holds data for, as
    many elements as the shape says, a tensor the operation returns has the
    caller's shape and the engine holds data for it, as many elements as that
    shape says; the rank-3 view of the result is such a tensor too. *)
Theorem X6_returned_tensors_are_valid :
  forall {num : Type} {arith : Numeric num}
         (backend : string -> KernelConfig -> M num Tensor)
         x r b a bt s (e e' : Engine num) t,
    returnsValidTensors backend ->
    localResponseNormalization backend x r b a bt s e = (Ok t, e') ->
    shape t = shape x /\ validTensor e' t.
Proof.
  intros num arith backend x r b a bt s e e' t Hvalid. rewrite lrn_cases.
  destruct ((rank x =? 4) || (rank x =? 3)) eqn:Hrank; cbn [negb];
    [| discriminate].
  destruct (negb (isInt (radius (withDefaults r b a bt s))));
    [discriminate |].
  cbv zeta.
  match goal with
  | |- context [backend "LRN4D" ?c ?e0] =>
      pose proof (Hvalid c e0) as Hres;
      destruct (backend "LRN4D" c e0) as [[res | err] e1]
  end; [| discriminate].
  destruct (Hres e1 res eq_refl) as (Hshape & buf & Hbuf & Hlen).
  cbn [inputs_x] in Hshape.
  destruct (rank x =? 3) eqn:H3; intros [= <- <-].
  - apply Nat.eqb_eq in H3.
    assert (shape res = shape (batchOfOne x)) as Hshape'.
    { rewrite Hshape. unfold kernelInput. now rewrite H3. }
    assert (shape (dropBatch res) = shape x) as Hback.
    { unfold dropBatch, as3D. simpl. rewrite Hshape'. simpl.
      now rewrite <- rank3_shape. }
    split; [exact Hback |].
    exists buf. split; [exact Hbuf |].
    rewrite Hlen, Hback, Hshape'. now apply sizeOf_batchOfOne.
  - split.
    + rewrite Hshape. unfold kernelInput. now rewrite H3.
    + exists buf. split; assumption.
Qed.

(** The result on the rank-3 tensor [1, 2, 3] is a valid tensor. *)
Lemma X6_valid_result_on_t113 :
  exists t e',
    lrn t113 None None None None None engine123 = (Ok t, e') /\
    shape t = [1; 1; 3] /\ validTensor e' t.
Proof.
  pose proof (lrn_ok t113 None None None None None engine123 AcrossChannels
                vec123 (or_introl eq_refl) eq_refl eq_refl eq_refl) as Hrun.
  cbv zeta in Hrun.
  eexists _, _. split; [exact Hrun |].
  exact (X6_returned_tensors_are_valid lrnBackend t113 None None None None
           None engine123 _ _ lrnBackend_returnsValidTensors Hrun).
Defined.

(** X7: a result can be fed back.  Over a backend whose kernel keeps the shape
    of its input, a tensor the operation returns passes the operation's own
    two assertions with the same parameters, from any engine.  Over the
    'LRN4D' kernel the second call succeeds whenever the first did, and
    returns a tensor of the first caller's shape over yet another buffer. *)
Theorem X7_results_can_be_fed_back :
  forall {num : Type} {arith : Numeric num},
    (forall (backend : string -> KernelConfig -> M num Tensor)
            x r b a bt s (e e' e2 : Engine num) t,
        (forall cfg e t e',
            backend "LRN4D" cfg e = (Ok t, e') ->
            shape t = shape (inputs_x cfg)) ->
        localResponseNormalization backend x r b a bt s e = (Ok t, e') ->
        localResponseNormalization backend t r b a bt s e2
        = let cfg := {| inputs_x := kernelInput t;
                        args := withDefaults r b a bt s |} in
          match backend "LRN4D" cfg (logCall "LRN4D" cfg e2) with
          | (Ok res, e3) =>
              (Ok (if rank t =? 3 then dropBatch res else res), e3)
          | (Err err, e3) => (Err err, e3)
          end) /\
    (forall x r b a bt s (e e' : Engine num) t,
        lrn x r b a bt s e = (Ok t, e') ->
        exists t2 e2,
          lrn t r b a bt s e' = (Ok t2, e2) /\
          shape t2 = shape x /\
          dataId t2 <> dataId t /\ dataId t2 <> dataId x).
Proof.
  intros num arith. split.
  - intros backend x r b a bt s e e' e2 t Hkernel Hrun.
    assert (shape t = shape x) as Hshape by (eapply lrn_shape; eauto).
    rewrite lrn_cases in Hrun.
    destruct ((rank x =? 4) || (rank x =? 3)) eqn:Hrank; cbn [negb] in Hrun;
      [| discriminate].
    destruct (isInt (radius (withDefaults r b a bt s))) eqn:Hint;
      cbn [negb] in Hrun; [| discriminate].
    apply lrn_dispatch; [| exact Hint].
    unfold rank. rewrite Hshape. fold (rank x).
    apply orb_prop in Hrank as [H4 | H3]; [right | left];
      now apply Nat.eqb_eq.
  - intros x r b a bt s e e' t Hrun.
    destruct (lrn_ok_inv x r b a bt s e e' t Hrun)
      as (Hrank & Hrad & region & buf & Hreg & Hbuf & -> & ->).
    eexists _, _. split.
    { apply (lrn_ok _ r b a bt s _ region); try assumption.
      unfold allocated. cbn [store logCall dataId]. apply lookup_insert_eq. }
    split; [reflexivity |].
    cbn [dataId].
    match goal with
    | |- fresh (dom (store ?e1)) <> _ /\ _ =>
        pose proof (is_fresh (dom (store e1))) as Hfresh
    end.
    unfold allocated in Hfresh |- *. cbn [store logCall] in Hfresh |- *.
    split; intros Heq; apply Hfresh; rewrite Heq; apply elem_of_dom.
    + rewrite lookup_insert_eq. eauto.
    + rewrite lookup_insert_ne; [eauto |].
      intros Hx. apply (is_fresh (dom (store e))). rewrite Hx.
      apply elem_of_dom. eauto.
Qed.

(** Two calls in a row on the rank-3 tensor [1, 2, 3]. *)
Lemma X7_two_calls_on_t113 :
  exists t e' t2 e2,
    lrn t113 None None None None None engine123 = (Ok t, e') /\
    lrn t None None None None None e' = (Ok t2, e2) /\
    shape t2 = [1; 1; 3].
Proof.
  pose proof (lrn_ok t113 None None None None None engine123 AcrossChannels
                vec123 (or_introl eq_refl) eq_refl eq_refl eq_refl) as Hrun.
  cbv zeta in Hrun.
  destruct (proj2 (@X7_results_can_be_fed_back Formula FormulaNumeric)
              t113 None None None None None engine123 _ _ Hrun)
    as (t2 & e2 & Hrun2 & Hshape & _).
  eexists _, _, t2, e2. split; [exact Hrun | split; [exact Hrun2 | exact Hshape]].
Defined.
